(** * VOICE-AI-AGENT: token issuance and dispatch de-duplication

    A shallow embedding of [app/services/agent_service.py],
    [app/services/token_service.py], [app/models/*.py],
    [app/core/exceptions.py] and the parts of [app/config/settings.py]
    these services read.

    Conventions.
    - A Python [str] is a [string]; [len] is [String.length].
    - [Optional[T]] is [option T]; Python truthiness of an optional string
      ([x or y], [if x]) is [truthy].
    - [time.time()] returns seconds as a float; it is modelled by an exact
      rational ([Q]), so [now - timestamp] is the exact difference.  The
      comparisons with [ttl_seconds] are those of the source ([>] for the
      sweep, [<] for the suppression test).
    - [datetime] and [timedelta] are integers counting microseconds.
    - Calls to the logger are left out: they change nothing the services
      return or store.
    - The dictionary [DispatchCache._cache] is a [gmap] keyed by
      [(room, agent)].
    - The external collaborators (the wall clock, [AccessToken.to_jwt],
      the LiveKit dispatch RPC, [datetime.isoformat]) are variables of a
      section: every theorem holds for all of them. *)

From Stdlib Require Import QArith Lqa Ascii String.
From stdpp Require Import gmap strings pretty list fin_maps.

Local Open Scope string_scope.

(** ** Python helpers *)

Module Py.

(** Truthiness of a [str]: the empty string is falsy. *)
Definition str_truthy (s : string) : bool :=
  match s with
  | EmptyString => false
  | String _ _ => true
  end.

(** Truthiness of an [Optional[str]]: [None] and [""] are falsy. *)
Definition truthy (o : option string) : bool :=
  match o with
  | None => false
  | Some s => str_truthy s
  end.

(** [x or d] where [x : Optional[str]] and [d : str]. *)
Definition or_default (x : option string) (d : string) : string :=
  match x with
  | Some s => if str_truthy s then s else d
  | None => d
  end.

(** [x or y] where both are [Optional[str]]: the first operand when it is
    truthy, the second operand (whatever it is) otherwise. *)
Definition or_else (x y : option string) : option string :=
  if truthy x then x else y.

(** [s.replace(c, '')] for a one-character [c]. *)
Fixpoint remove_char (c : ascii) (s : string) : string :=
  match s with
  | EmptyString => EmptyString
  | String a rest =>
      if Ascii.eqb a c then remove_char c rest
      else String a (remove_char c rest)
  end.

Definition is_alnum_char (a : ascii) : bool :=
  let n := nat_of_ascii a in
  ((48 <=? n) && (n <=? 57) || (65 <=? n) && (n <=? 90)
   || (97 <=? n) && (n <=? 122))%nat.

Fixpoint all_alnum (s : string) : bool :=
  match s with
  | EmptyString => true
  | String a rest => is_alnum_char a && all_alnum rest
  end.

(** [s.isalnum()] on ASCII text: non-empty and every character
    alphanumeric. *)
Definition isalnum (s : string) : bool := str_truthy s && all_alnum s.

(** Decimal rendering of an [int] inside an f-string. *)
Definition str_of_int (z : Z) : string := pretty z.

(** The double-quote character, as a one-character string. *)
Definition dq : string := String (ascii_of_nat 34) EmptyString.

End Py.

(** ** [app/core/exceptions.py] *)

(** The exceptions a service call can end with.  [str exn] is the text
    Python's [str(e)] gives: [APIException.__init__] passes [detail] to
    [Exception.__init__]. *)
Inductive exn : Type :=
| TokenGenerationError (detail : string)
| AgentDispatchError (detail : string)
| HTTPException (status : Z) (detail : string)
| PyException (msg : string).

Definition str_exn (e : exn) : string :=
  match e with
  | TokenGenerationError d => d
  | AgentDispatchError d => d
  | HTTPException c d => pretty c ++ ": " ++ d
  | PyException m => m
  end.

Definition status_code (e : exn) : Z :=
  match e with
  | TokenGenerationError _ => 400
  | AgentDispatchError _ => 500
  | HTTPException c _ => c
  | PyException _ => 500
  end.

Definition is_TokenGenerationError (e : exn) : bool :=
  match e with TokenGenerationError _ => true | _ => false end.

Definition is_AgentDispatchError (e : exn) : bool :=
  match e with AgentDispatchError _ => true | _ => false end.

(** ** [app/config/settings.py] *)

Inductive Environment : Type := DEVELOPMENT | STAGING | PRODUCTION.

(** [e.value]: the value of the enum member. *)
Definition Environment_value (e : Environment) : string :=
  match e with
  | DEVELOPMENT => "development"
  | STAGING => "staging"
  | PRODUCTION => "production"
  end.

(** What an f-string makes of the member.  [Environment] mixes in [str] but
    is a plain [Enum], so [format()] gives what [str()] gives, the class
    name and the member name (Python 3.11 and later; earlier versions gave
    the value). *)
Definition Environment_format (e : Environment) : string :=
  match e with
  | DEVELOPMENT => "Environment.DEVELOPMENT"
  | STAGING => "Environment.STAGING"
  | PRODUCTION => "Environment.PRODUCTION"
  end.

Record Settings : Type := {
  environment : Environment;
  livekit_ws_url : string;
  livekit_api_key : string;
  livekit_api_secret : string;
  agent_name : string;
  max_token_ttl_minutes : Z;
  default_token_ttl_minutes : Z;
  dispatch_cache_ttl_seconds : Z;
  max_room_name_length : Z;
  max_identity_length : Z
}.

(** The [Field(..., ge=, le=)] bounds of [Settings]. *)
Definition Settings_valid (s : Settings) : bool :=
  (1 <=? max_token_ttl_minutes s)%Z && (max_token_ttl_minutes s <=? 10080)%Z
  && (1 <=? default_token_ttl_minutes s)%Z
  && (default_token_ttl_minutes s <=? 1440)%Z
  && (1 <=? dispatch_cache_ttl_seconds s)%Z
  && (dispatch_cache_ttl_seconds s <=? 60)%Z
  && (1 <=? max_room_name_length s)%Z && (max_room_name_length s <=? 255)%Z
  && (1 <=? max_identity_length s)%Z && (max_identity_length s <=? 255)%Z.

(** [settings] with other length limits. *)
Definition with_length_limits (room_length identity_length : Z) (s : Settings)
  : Settings :=
  {| environment := environment s;
     livekit_ws_url := livekit_ws_url s;
     livekit_api_key := livekit_api_key s;
     livekit_api_secret := livekit_api_secret s;
     agent_name := agent_name s;
     max_token_ttl_minutes := max_token_ttl_minutes s;
     default_token_ttl_minutes := default_token_ttl_minutes s;
     dispatch_cache_ttl_seconds := dispatch_cache_ttl_seconds s;
     max_room_name_length := room_length;
     max_identity_length := identity_length |}.

(** ** [app/models/requests.py] *)

Record TokenRequest : Type := {
  tr_room : string;
  tr_identity : option string;
  tr_name : option string;
  tr_ttl_minutes : Z;
  tr_mic_only : bool;
  tr_dispatch_agent : bool
}.

Definition len (s : string) : Z := Z.of_nat (String.length s).

(** [v.replace('-', '').replace('_', '').isalnum()] *)
Definition charset_ok (v : string) : bool :=
  Py.isalnum (Py.remove_char "_"%char (Py.remove_char "-"%char v)).

Definition validate_room_name (v : string) : bool := charset_ok v.

Definition validate_identity (v : option string) : bool :=
  if Py.truthy v then
    match v with Some s => charset_ok s | None => true end
  else true.

Definition opt_max_length (n : Z) (o : option string) : bool :=
  match o with
  | None => true
  | Some s => (len s <=? n)%Z
  end.

(** What pydantic accepts as a [TokenRequest]. *)
Definition TokenRequest_valid (r : TokenRequest) : bool :=
  (1 <=? len (tr_room r))%Z && (len (tr_room r) <=? 100)%Z
  && validate_room_name (tr_room r)
  && opt_max_length 100 (tr_identity r) && validate_identity (tr_identity r)
  && opt_max_length 100 (tr_name r)
  && (1 <=? tr_ttl_minutes r)%Z && (tr_ttl_minutes r <=? 1440)%Z.

Record DispatchRequest : Type := {
  dr_room : string;
  dr_agent_name : option string;
  dr_metadata : option string
}.

(** What pydantic accepts as a [DispatchRequest], apart from the JSON
    well-formedness of [metadata], which no operation below inspects. *)
Definition DispatchRequest_valid (r : DispatchRequest) : bool :=
  (1 <=? len (dr_room r))%Z && (len (dr_room r) <=? 100)%Z
  && opt_max_length 100 (dr_agent_name r).

(** ** [app/models/responses.py] *)

Record TokenResponse : Type := {
  token : string;
  ws_url : string;
  room : string;
  identity : string;
  ttl_minutes : Z;
  expires_at : Z
}.

Record DispatchResponse : Type := {
  dispatch_id : string;
  dp_room : string;
  dp_agent_name : string;
  note : option string
}.

(** ** [DispatchCache] of [app/services/agent_service.py] *)

Record DispatchCache : Type := {
  ttl_seconds : Z;
  _cache : gmap (string * string) Q
}.

Definition DispatchCache_init (ttl : Z) : DispatchCache :=
  {| ttl_seconds := ttl; _cache := ∅ |}.

(** [a > b] and [a < b] on the modelled floats. *)
Definition Qgtb (a b : Q) : bool := negb (Qle_bool a b).
Definition Qltb (a b : Q) : bool := negb (Qle_bool b a).

(** [now - timestamp > self.ttl_seconds], the test of the eviction sweep. *)
Definition is_expired (ttl : Z) (now : Q) (timestamp : Q) : bool :=
  Qgtb (now - timestamp) (inject_Z ttl).

(** The cache after [for k in expired_keys: self._cache.pop(k, None)]. *)
Definition evict (ttl : Z) (now : Q) (m : gmap (string * string) Q)
  : gmap (string * string) Q :=
  filter (λ kv, is_expired ttl now kv.2 = false) m.

(** [DispatchCache.should_skip], with the reading of [time.time()] as the
    argument [now]. *)
Definition should_skip (now : Q) (room agent : string) (self : DispatchCache)
  : bool * DispatchCache :=
  let key := (room, agent) in
  let swept := evict (ttl_seconds self) now (_cache self) in
  match swept !! key with
  | Some timestamp =>
      if Qltb (now - timestamp) (inject_Z (ttl_seconds self)) then
        (true, {| ttl_seconds := ttl_seconds self; _cache := swept |})
      else
        (false, {| ttl_seconds := ttl_seconds self;
                   _cache := <[key := now]> swept |})
  | None =>
      (false, {| ttl_seconds := ttl_seconds self;
                 _cache := <[key := now]> swept |})
  end.

(** A series of [should_skip] calls on one cache, each with its clock reading
    and its key, and the cache they leave. *)
Fixpoint run_calls (calls : list (Q * (string * string))) (c : DispatchCache)
  : DispatchCache :=
  match calls with
  | [] => c
  | (now, (room, agent)) :: rest =>
      run_calls rest (snd (should_skip now room agent c))
  end.

(** The clock readings of the calls never go back, starting from [t]. *)
Fixpoint nondecreasing_from (t : Q) (calls : list (Q * (string * string)))
  : Prop :=
  match calls with
  | [] => True
  | (now, _) :: rest => (t <= now)%Q /\ nondecreasing_from now rest
  end.

(** What holds of the entry of key [k] once a call on [k] has been accepted
    at [t1] and the clock has reached [tl]: the entry is a timestamp not
    before [t1], or it is gone and the window of [t1] is over. *)
Definition window_inv (k : string * string) (t1 tl : Q) (c : DispatchCache)
  : Prop :=
  (t1 <= tl)%Q
  /\ match _cache c !! k with
     | Some ts => (t1 <= ts)%Q
     | None => (inject_Z (ttl_seconds c) < tl - t1)%Q
     end.

(** ** The LiveKit data the services build *)

(** [livekit.api.VideoGrants], restricted to the fields the service sets;
    [can_publish_sources] is [None] unless assigned. *)
Record VideoGrants : Type := {
  room_join : bool;
  vg_room : string;
  can_publish : bool;
  can_subscribe : bool;
  can_publish_sources : option (list string)
}.

Record RoomAgentDispatch : Type := {
  rad_agent_name : string;
  rad_metadata : string
}.

Record RoomConfiguration : Type := {
  agents : list RoomAgentDispatch
}.

(** The state of the [AccessToken] builder when [to_jwt] is called on it. *)
Record AccessToken : Type := {
  api_key : string;
  api_secret : string;
  at_identity : option string;
  at_name : option string;
  at_grants : VideoGrants;
  at_ttl : Z;
  at_room_config : option RoomConfiguration
}.

Record CreateAgentDispatchRequest : Type := {
  cad_agent_name : string;
  cad_room : string;
  cad_metadata : string
}.

(** [dt.timedelta(minutes=m)], in microseconds. *)
Definition timedelta_minutes (m : Z) : Z := (m * 60000000)%Z.

(** ** The process state and the monad of a service call *)

(** [ticks] counts the clock readings made so far; [jwt_calls] and
    [rpc_calls] log, latest first, every invocation of the signing primitive
    and of the dispatch RPC; [dispatch_cache] is the cache owned by the
    (process-wide, [lru_cache]d) [AgentService]. *)
Record World : Type := {
  ticks : nat;
  jwt_calls : list AccessToken;
  rpc_calls : list CreateAgentDispatchRequest;
  dispatch_cache : DispatchCache
}.

(** A call either returns or raises, and keeps its effects in both cases. *)
Definition M (A : Type) : Type := World -> (exn + A) * World.

Definition ret {A : Type} (a : A) : M A := λ w, (inr a, w).

Definition bind {A B : Type} (m : M A) (k : A -> M B) : M B :=
  λ w,
    match m w with
    | (inl e, w') => (inl e, w')
    | (inr a, w') => k a w'
    end.

Notation "x <- m ;; k" := (bind m (fun x => k))
  (at level 100, m at next level, right associativity).

Definition raise {A : Type} (e : exn) : M A := λ w, (inl e, w).

(** [try: body  except Exception as e: handler e] *)
Definition try_except {A : Type} (body : M A) (handler : exn -> M A) : M A :=
  λ w,
    match body w with
    | (inl e, w') => handler e w'
    | (inr a, w') => (inr a, w')
    end.

(** Lifting the outcome of an external call that leaves the state alone. *)
Definition lift_result {A : Type} (r : exn + A) : M A := λ w, (r, w).

Definition tick (w : World) : World :=
  {| ticks := S (ticks w); jwt_calls := jwt_calls w;
     rpc_calls := rpc_calls w; dispatch_cache := dispatch_cache w |}.

Definition log_jwt (t : AccessToken) (w : World) : World :=
  {| ticks := ticks w; jwt_calls := t :: jwt_calls w;
     rpc_calls := rpc_calls w; dispatch_cache := dispatch_cache w |}.

Definition log_rpc (r : CreateAgentDispatchRequest) (w : World) : World :=
  {| ticks := ticks w; jwt_calls := jwt_calls w;
     rpc_calls := r :: rpc_calls w; dispatch_cache := dispatch_cache w |}.

Definition set_cache (c : DispatchCache) (w : World) : World :=
  {| ticks := ticks w; jwt_calls := jwt_calls w;
     rpc_calls := rpc_calls w; dispatch_cache := c |}.

Section Services.

(** The wall clock: the [n]-th reading, as [time.time()] and as
    [datetime.utcnow()]. *)
Variable time_time : nat -> Q.
Variable utcnow : nat -> Z.
Variable isoformat : Z -> string.

(** [AccessToken(api_key=, api_secret=)] and [.to_jwt()]: both may raise. *)
Variable AccessToken_new : string -> string -> exn + unit.
Variable to_jwt : World -> AccessToken -> exn + string.

(** [LiveKitAPI()] and [lk_api.agent_dispatch.create_dispatch(request)],
    returning [dispatch.dispatch_id]: both may raise. *)
Variable LiveKitAPI_new : World -> exn + unit.
Variable lk_create_dispatch
  : World -> CreateAgentDispatchRequest -> exn + string.

(** [get_settings()] *)
Variable settings : Settings.

Definition read_time : M Q := λ w, (inr (time_time (ticks w)), tick w).
Definition read_utcnow : M Z := λ w, (inr (utcnow (ticks w)), tick w).

Definition call_to_jwt (t : AccessToken) : M string :=
  λ w, (to_jwt w t, log_jwt t w).

Definition open_LiveKitAPI : M unit := λ w, (LiveKitAPI_new w, w).

Definition call_create_dispatch (r : CreateAgentDispatchRequest) : M string :=
  λ w, (lk_create_dispatch w r, log_rpc r w).

(** *** [AgentService] *)

(** [self.dispatch_cache.should_skip(room, agent)]: reads the clock, then
    runs the body on the shared cache. *)
Definition run_should_skip (now : Q) (room agent : string) : M bool :=
  λ w, let '(skip, c) := should_skip now room agent (dispatch_cache w) in
       (inr skip, set_cache c w).

Definition cache_should_skip (room agent : string) : M bool :=
  now <- read_time;;
  run_should_skip now room agent.

Definition _create_livekit_dispatch (room agent_name : string)
    (metadata : option string) : M string :=
  _ <- open_LiveKitAPI;;
  let request :=
    {| cad_agent_name := agent_name;
       cad_room := room;
       cad_metadata := Py.or_default metadata "{}" |} in
  call_create_dispatch request.

Definition create_dispatch (request : DispatchRequest) : M DispatchResponse :=
  try_except
    (let agent_name :=
       Py.or_default (dr_agent_name request) (agent_name settings) in
     skip <- cache_should_skip (dr_room request) agent_name;;
     if skip then
       ret {| dispatch_id := "skipped";
               dp_room := dr_room request;
               dp_agent_name := agent_name;
               note := Some "duplicate-suppressed" |}
     else
       dispatch_id <- _create_livekit_dispatch
                        (dr_room request) agent_name (dr_metadata request);;
       ret {| dispatch_id := dispatch_id;
               dp_room := dr_room request;
               dp_agent_name := agent_name;
               note := None |})
    (λ e,
       if is_AgentDispatchError e then raise e
       else raise (AgentDispatchError
                     ("Failed to create agent dispatch: " ++ str_exn e))).

(** *** [TokenService] *)

(** [TokenService._build_agent_metadata]: the timestamp is read from the
    clock at each call. *)
Definition agent_metadata_text (now : Z) : string :=
  "{" ++ Py.dq ++ "source" ++ Py.dq ++ ":" ++ Py.dq ++ "api" ++ Py.dq
  ++ "," ++ Py.dq ++ "timestamp" ++ Py.dq ++ ":"
  ++ Py.dq ++ isoformat now ++ Py.dq
  ++ "," ++ Py.dq ++ "environment" ++ Py.dq ++ ":"
  ++ Py.dq ++ Environment_format (environment settings) ++ Py.dq
  ++ "}".

Definition _build_agent_metadata : M string :=
  now <- read_utcnow;;
  ret (agent_metadata_text now).

(** [TokenResponse(...)]: pydantic rejects [identity=None], the field
    being a required [str]. *)
Definition TokenResponse_new (token ws_url room : string)
    (identity : option string) (ttl_minutes expires_at : Z)
    : M TokenResponse :=
  match identity with
  | Some i =>
      ret {| token := token; ws_url := ws_url; room := room;
             identity := i; ttl_minutes := ttl_minutes;
             expires_at := expires_at |}
  | None =>
      raise (PyException "1 validation error for TokenResponse")
  end.

Definition ttl_exceeds_maximum : exn :=
  TokenGenerationError
    ("TTL exceeds maximum allowed: "
     ++ Py.str_of_int (max_token_ttl_minutes settings) ++ " minutes").

Definition base_grants (request : TokenRequest) : VideoGrants :=
  {| room_join := true;
     vg_room := tr_room request;
     can_publish := true;
     can_subscribe := true;
     can_publish_sources := None |}.

Definition set_can_publish_sources (l : list string) (g : VideoGrants)
  : VideoGrants :=
  {| room_join := room_join g; vg_room := vg_room g;
     can_publish := can_publish g; can_subscribe := can_subscribe g;
     can_publish_sources := Some l |}.

Definition with_room_config (c : RoomConfiguration) (t : AccessToken)
  : AccessToken :=
  {| api_key := api_key t; api_secret := api_secret t;
     at_identity := at_identity t; at_name := at_name t;
     at_grants := at_grants t; at_ttl := at_ttl t;
     at_room_config := Some c |}.

Definition generate_token (request : TokenRequest) : M TokenResponse :=
  try_except
    (if (tr_ttl_minutes request >? max_token_ttl_minutes settings)%Z then
       raise ttl_exceeds_maximum
     else
       let grants := base_grants request in
       let grants :=
         if tr_mic_only request
         then set_can_publish_sources ["microphone"] grants
         else grants in
       _ <- lift_result (AccessToken_new (livekit_api_key settings)
                                         (livekit_api_secret settings));;
       let token_builder :=
         {| api_key := livekit_api_key settings;
            api_secret := livekit_api_secret settings;
            at_identity := tr_identity request;
            at_name := Py.or_else (tr_name request) (tr_identity request);
            at_grants := grants;
            at_ttl := timedelta_minutes (tr_ttl_minutes request);
            at_room_config := None |} in
       token_builder <-
         (if tr_dispatch_agent request then
            metadata <- _build_agent_metadata;;
            ret (with_room_config
                   {| agents := [ {| rad_agent_name := agent_name settings;
                                     rad_metadata := metadata |} ] |}
                   token_builder)
          else ret token_builder);;
       jwt_token <- call_to_jwt token_builder;;
       now <- read_utcnow;;
       TokenResponse_new jwt_token (livekit_ws_url settings)
         (tr_room request) (tr_identity request) (tr_ttl_minutes request)
         (now + timedelta_minutes (tr_ttl_minutes request))%Z)
    (λ e,
       if is_TokenGenerationError e then raise e
       else raise (TokenGenerationError
                     ("Failed to generate token: " ++ str_exn e))).

Definition room_name_too_long : exn :=
  TokenGenerationError
    ("Room name exceeds maximum length: "
     ++ Py.str_of_int (max_room_name_length settings)).

Definition identity_too_long : exn :=
  TokenGenerationError
    ("Identity exceeds maximum length: "
     ++ Py.str_of_int (max_identity_length settings)).

(** [TokenService.validate_token_request].  No function of the repository
    calls it. *)
Definition validate_token_request (request : TokenRequest) : M unit :=
  if (len (tr_room request) >? max_room_name_length settings)%Z then
    raise room_name_too_long
  else if Py.truthy (tr_identity request)
          && match tr_identity request with
             | Some i => (len i >? max_identity_length settings)%Z
             | None => false
             end then
    raise identity_too_long
  else if (tr_ttl_minutes request <? 1)%Z then
    raise (TokenGenerationError "TTL must be at least 1 minute")
  else if (tr_ttl_minutes request >? max_token_ttl_minutes settings)%Z then
    raise ttl_exceeds_maximum
  else ret tt.

(** *** What [generate_token] hands to its collaborators *)

(** What the [except] clause of [generate_token] re-raises. *)
Definition reraised (e : exn) : exn :=
  if is_TokenGenerationError e then e
  else TokenGenerationError ("Failed to generate token: " ++ str_exn e).

(** The grants [generate_token] computes for a request. *)
Definition request_grants (request : TokenRequest) : VideoGrants :=
  {| room_join := true;
     vg_room := tr_room request;
     can_publish := true;
     can_subscribe := true;
     can_publish_sources :=
       if tr_mic_only request then Some ["microphone"] else None |}.

(** The builder on which [generate_token] calls [to_jwt], given the room
    configuration attached to it. *)
Definition request_builder (request : TokenRequest)
    (cfg : option RoomConfiguration) : AccessToken :=
  {| api_key := livekit_api_key settings;
     api_secret := livekit_api_secret settings;
     at_identity := tr_identity request;
     at_name := Py.or_else (tr_name request) (tr_identity request);
     at_grants := request_grants request;
     at_ttl := timedelta_minutes (tr_ttl_minutes request);
     at_room_config := cfg |}.

(** The room configuration of a call started in state [w]: present exactly
    when [dispatch_agent] is set, its metadata stamped with the clock
    reading the call makes. *)
Definition request_room_config (request : TokenRequest) (w : World)
  : option RoomConfiguration :=
  if tr_dispatch_agent request then
    Some {| agents :=
              [ {| rad_agent_name := agent_name settings;
                   rad_metadata :=
                     agent_metadata_text
                       (utcnow (ticks w)) |} ] |}
  else None.

(** The state in which [to_jwt] is called. *)
Definition before_signing (request : TokenRequest) (w : World) : World :=
  if tr_dispatch_agent request then tick w else w.

(** *** [app/api/endpoints/auth.py] *)

(** [secrets.token_urlsafe(8)] *)
Variable token_urlsafe : World -> string.

(** [TokenRequest(...)]: pydantic validates the fields. *)
Definition TokenRequest_new (r : TokenRequest) : M TokenRequest :=
  if TokenRequest_valid r then ret r
  else raise (PyException "validation error for TokenRequest").

Definition resolve_identity (identity : option string) : M (option string) :=
  if Py.truthy identity then ret identity
  else λ w, (inr (Some ("guest-" ++ token_urlsafe w)), w).

Definition to_http {A : Type} (body : M A) : M A :=
  try_except body
    (λ e,
       if is_TokenGenerationError e
       then raise (HTTPException 400 (str_exn e))
       else raise (HTTPException 500 "Failed to generate token")).

(** [GET /token] *)
Definition get_token (room : string) (identity name : option string)
    (ttl_minutes : Z) (mic_only dispatch_agent : bool) : M TokenResponse :=
  to_http
    (identity <- resolve_identity identity;;
     token_request <-
       TokenRequest_new
         {| tr_room := room; tr_identity := identity; tr_name := name;
            tr_ttl_minutes := ttl_minutes; tr_mic_only := mic_only;
            tr_dispatch_agent := dispatch_agent |};;
     generate_token token_request).

(** The request once the endpoint has resolved its identity in state [w]. *)
Definition resolved (request : TokenRequest) (w : World) : TokenRequest :=
  {| tr_room := tr_room request;
     tr_identity :=
       if Py.truthy (tr_identity request) then tr_identity request
       else Some ("guest-" ++ token_urlsafe w);
     tr_name := tr_name request;
     tr_ttl_minutes := tr_ttl_minutes request;
     tr_mic_only := tr_mic_only request;
     tr_dispatch_agent := tr_dispatch_agent request |}.

(** [POST /token] *)
Definition create_token (request : TokenRequest) : M TokenResponse :=
  to_http
    (identity <- resolve_identity (tr_identity request);;
     generate_token
       {| tr_room := tr_room request; tr_identity := identity;
          tr_name := tr_name request;
          tr_ttl_minutes := tr_ttl_minutes request;
          tr_mic_only := tr_mic_only request;
          tr_dispatch_agent := tr_dispatch_agent request |}).

End Services.

(** ** Notions used in the statements *)

(** The instructions a signed token embeds. *)
Definition dispatch_instructions (t : AccessToken) : list RoomAgentDispatch :=
  match at_room_config t with
  | Some c => agents c
  | None => []
  end.

(** The agent name the specification's sentence prescribes for the embedded
    instruction: the override of the caller's dispatch context when there is
    one, the configured default otherwise. *)
Definition spec_instruction_agent_name (override : option string)
    (s : Settings) : string :=
  match override with
  | Some a => a
  | None => agent_name s
  end.

(** ** A concrete deployment, for the examples *)

(** A cache holding one accepted dispatch of ["py-agent"] into ["lobby"] at
    time 0, with the default window of 3 seconds. *)
Definition lobby_cache : DispatchCache :=
  {| ttl_seconds := 3; _cache := {[ ("lobby", "py-agent") := 0%Q ]} |}.

(** The defaults of [Settings], with placeholder LiveKit credentials. *)
Definition default_settings : Settings :=
  {| environment := DEVELOPMENT;
     livekit_ws_url := "wss://voice.example.org";
     livekit_api_key := "APIkey";
     livekit_api_secret := "secret";
     agent_name := "py-agent";
     max_token_ttl_minutes := 1440;
     default_token_ttl_minutes := 60;
     dispatch_cache_ttl_seconds := 3;
     max_room_name_length := 100;
     max_identity_length := 100 |}.

(** A clock whose [n]-th reading is [n] seconds after the epoch. *)
Definition clock_seconds (n : nat) : Q := inject_Z (Z.of_nat n).
Definition clock_utc (n : nat) : Z := (Z.of_nat n * 1000000)%Z.
Definition iso_stub (t : Z) : string := "T+" ++ pretty t.

(** Collaborators that never fail. *)
Definition api_ok (w : World) : exn + unit := inr tt.
Definition rpc_ok (w : World) (r : CreateAgentDispatchRequest) : exn + string :=
  inr ("AD_" ++ pretty (length (rpc_calls w))).
Definition new_ok (key secret : string) : exn + unit := inr tt.
Definition jwt_ok (w : World) (t : AccessToken) : exn + string :=
  inr ("jwt-for-" ++ vg_room (at_grants t)).
Definition urlsafe_stub (w : World) : string := "c29tZXRva2Vu".

(** One second after start-up, with the dispatch of [lobby_cache] on
    record. *)
Definition busy_world : World :=
  {| ticks := 1; jwt_calls := []; rpc_calls := [];
     dispatch_cache := lobby_cache |}.

Definition fresh_world : World :=
  {| ticks := 0; jwt_calls := []; rpc_calls := [];
     dispatch_cache := DispatchCache_init 3 |}.

Definition lobby_request : TokenRequest :=
  {| tr_room := "lobby"; tr_identity := Some "alice"; tr_name := None;
     tr_ttl_minutes := 60; tr_mic_only := true; tr_dispatch_agent := false |}.

Definition lobby_request_with_agent : TokenRequest :=
  {| tr_room := "lobby"; tr_identity := Some "alice"; tr_name := None;
     tr_ttl_minutes := 60; tr_mic_only := false; tr_dispatch_agent := true |}.

(** A deployment that caps tokens at half an hour. *)
Definition half_hour_settings : Settings :=
  {| environment := PRODUCTION;
     livekit_ws_url := "wss://voice.example.org";
     livekit_api_key := "APIkey";
     livekit_api_secret := "secret";
     agent_name := "py-agent";
     max_token_ttl_minutes := 30;
     default_token_ttl_minutes := 30;
     dispatch_cache_ttl_seconds := 3;
     max_room_name_length := 100;
     max_identity_length := 100 |}.

(** A deployment that limits room names to five characters. *)
Definition short_rooms_settings : Settings :=
  with_length_limits 5 100 default_settings.

(** The scenario of the specification: a mic-only token for the lobby, one
    hour, no dispatch. *)
Definition lobby_response : TokenResponse :=
  {| token := "jwt-for-lobby"; ws_url := "wss://voice.example.org";
     room := "lobby"; identity := "alice"; ttl_minutes := 60;
     expires_at := 3600000000 |}.

(** ** [app/api/endpoints/agent.py] and the dispatch path in detail *)

Section DispatchPath.

Variable time_time : nat -> Q.
Variable LiveKitAPI_new : World -> exn + unit.
Variable lk_create_dispatch
  : World -> CreateAgentDispatchRequest -> exn + string.
Variable settings : Settings.

(** [POST /dispatch], the function [create_dispatch] of
    [app/api/endpoints/agent.py]. *)
Definition endpoint_create_dispatch (request : DispatchRequest)
  : M DispatchResponse :=
  try_except
    (create_dispatch time_time LiveKitAPI_new lk_create_dispatch settings
       request)
    (λ e,
       if is_AgentDispatchError e
       then raise (HTTPException 400 (str_exn e))
       else raise (HTTPException 500 "Failed to create agent dispatch")).

(** What the [except] clause of [AgentService.create_dispatch] re-raises. *)
Definition dispatch_reraised (e : exn) : exn :=
  if is_AgentDispatchError e then e
  else AgentDispatchError ("Failed to create agent dispatch: " ++ str_exn e).

(** The agent name [create_dispatch] works with. *)
Definition effective_agent (request : DispatchRequest) : string :=
  Py.or_default (dr_agent_name request) (agent_name settings).

(** The cache decision [create_dispatch request] takes in state [w]. *)
Definition cache_decision (request : DispatchRequest) (w : World)
  : bool * DispatchCache :=
  should_skip (time_time (ticks w)) (dr_room request)
    (effective_agent request) (dispatch_cache w).

(** The state once the cache has been consulted. *)
Definition after_cache_check (request : DispatchRequest) (w : World) : World :=
  set_cache (snd (cache_decision request w)) (tick w).

(** The request [_create_livekit_dispatch] sends. *)
Definition rpc_request (request : DispatchRequest)
  : CreateAgentDispatchRequest :=
  {| cad_agent_name := effective_agent request;
     cad_room := dr_room request;
     cad_metadata := Py.or_default (dr_metadata request) "{}" |}.

End DispatchPath.

(** Collaborators that are down. *)
Definition rpc_down (w : World) (r : CreateAgentDispatchRequest)
  : exn + string := inl (PyException "connection refused").
Definition jwt_down (w : World) (t : AccessToken) : exn + string :=
  inl (PyException "signing failed").

Definition lobby_dispatch : DispatchRequest :=
  {| dr_room := "lobby"; dr_agent_name := None; dr_metadata := None |}.

(** ** More of Python's [str], on ASCII text *)

Module PyStr.

(** [s.isascii()] *)
Fixpoint isascii (s : string) : bool :=
  match s with
  | EmptyString => true
  | String a rest => (nat_of_ascii a <? 128)%nat && isascii rest
  end.

(** [c.isspace()] for an ASCII character: tab to carriage return, the four
    separators 28 to 31, and the space. *)
Definition isspace_char (a : ascii) : bool :=
  let n := nat_of_ascii a in
  ((9 <=? n) && (n <=? 13) || (28 <=? n) && (n <=? 32))%nat.

(** [s.lstrip()], [s.rstrip()] and [s.strip()] *)
Fixpoint lstrip (s : string) : string :=
  match s with
  | EmptyString => EmptyString
  | String a rest => if isspace_char a then lstrip rest else s
  end.

Fixpoint rstrip (s : string) : string :=
  match s with
  | EmptyString => EmptyString
  | String a rest =>
      match rstrip rest with
      | EmptyString => if isspace_char a then EmptyString
                       else String a EmptyString
      | kept => String a kept
      end
  end.

Definition strip (s : string) : string := lstrip (rstrip s).

(** [s.split(sep)] for a one-character separator: never empty, [""] gives
    [[""]]. *)
Fixpoint split (sep : ascii) (s : string) : list string :=
  match s with
  | EmptyString => [EmptyString]
  | String a rest =>
      if Ascii.eqb a sep then EmptyString :: split sep rest
      else match split sep rest with
           | head :: tail => String a head :: tail
           | [] => [String a EmptyString]
           end
  end.

(** [c in s] for a character [c]. *)
Fixpoint contains (c : ascii) (s : string) : bool :=
  match s with
  | EmptyString => false
  | String a rest => Ascii.eqb a c || contains c rest
  end.

(** Whether the first, and the last, character of [s] is white space. *)
Definition starts_with_space (s : string) : bool :=
  match s with
  | EmptyString => false
  | String a _ => isspace_char a
  end.

Fixpoint ends_with_space (s : string) : bool :=
  match s with
  | EmptyString => false
  | String a EmptyString => isspace_char a
  | String _ rest => ends_with_space rest
  end.

(** [all(p(c) for c in s)] and [any(p(c) for c in s)] *)
Fixpoint all_chars (p : ascii -> bool) (s : string) : bool :=
  match s with
  | EmptyString => true
  | String a rest => p a && all_chars p rest
  end.

Fixpoint any_char (p : ascii -> bool) (s : string) : bool :=
  match s with
  | EmptyString => false
  | String a rest => p a || any_char p rest
  end.

End PyStr.

(** A character the validators of [TokenRequest] let through: a letter, a
    digit, a hyphen or an underscore. *)
Definition name_char (a : ascii) : bool :=
  Py.is_alnum_char a || Ascii.eqb a "-"%char || Ascii.eqb a "_"%char.

(** ** [DispatchRequest.validate_metadata_json] *)

Section Metadata.

(** Whether [json.loads(v)] returns, rather than raising
    [json.JSONDecodeError]. *)
Variable json_loads_ok : string -> bool.

(** The validator of [metadata]: the value the field takes, or the
    [ValueError] it raises. *)
Definition validate_metadata_json (v : option string) : exn + string :=
  if Py.truthy v then
    match v with
    | Some text =>
        if json_loads_ok text then inr (Py.or_default v "{}")
        else inl (PyException "Metadata must be valid JSON string")
    | None => inr (Py.or_default v "{}")
    end
  else inr (Py.or_default v "{}").

End Metadata.

(** ** [Settings.parse_list_from_string] and the list getters *)

(** A value of type [Union[str, List[str]]]. *)
Inductive StrOrList : Type :=
| AsStr (s : string)
| AsList (l : list string).

(** [[item.strip() for item in v.split(',') if item.strip()]] *)
Definition comma_separated (v : string) : list string :=
  map PyStr.strip
    (List.filter (fun item => Py.str_truthy (PyStr.strip item))
       (PyStr.split ","%char v)).

(** The [mode='before'] validator of [cors_allow_origins] and
    [trusted_hosts]. *)
Definition parse_list_from_string (v : StrOrList) : StrOrList :=
  match v with
  | AsStr s =>
      if String.eqb (PyStr.strip s) "*" then AsList ["*"]
      else AsList (comma_separated s)
  | AsList l => AsList l
  end.

(** [Settings.get_trusted_hosts_list] and [Settings.get_cors_origins_list]
    on the value of their field. *)
Definition get_list (field : StrOrList) : list string :=
  match field with
  | AsStr s => [s]
  | AsList l => l
  end.

Definition anonymous_request : TokenRequest :=
  {| tr_room := "lobby"; tr_identity := None; tr_name := None;
     tr_ttl_minutes := 60; tr_mic_only := true; tr_dispatch_agent := false |}.

(** Four seconds after a dispatch into the lobby. *)
Definition later_world : World :=
  {| ticks := 4; jwt_calls := []; rpc_calls := [];
     dispatch_cache :=
       dispatch_cache
         (snd (create_dispatch clock_seconds api_ok rpc_ok default_settings
                 lobby_dispatch fresh_world)) |}.

(** ** Start-up and health checks *)

(** The [mode='before'] validator of [livekit_ws_url] and [livekit_url], on
    a string. *)
Definition validate_urls (v : string) : exn + string :=
  if negb (existsb (fun scheme => String.prefix scheme v)
             ["ws://"; "wss://"; "http://"; "https://"])
  then inl (PyException "Invalid URL format")
  else inr v.

(** [all([settings.livekit_ws_url, settings.livekit_api_key,
    settings.livekit_api_secret])] *)
Definition required_configuration (s : Settings) : bool :=
  forallb Py.str_truthy
    [livekit_ws_url s; livekit_api_key s; livekit_api_secret s].

(** The start-up half of [lifespan] in [app/main.py]. *)
Definition lifespan_startup (s : Settings) : exn + unit :=
  if negb (required_configuration s)
  then inl (PyException "Missing required application configuration")
  else inr tt.

(** [readiness_check] of [app/api/endpoints/health.py]: the dictionary it
    returns, as the list of its items. *)
Definition readiness_check (s : Settings) : list (string * string) :=
  if negb (required_configuration s)
  then [("status", "not_ready"); ("reason", "missing_configuration")]
  else [("status", "ready")].

(** The ["ok"] entry of [legacy_status] in [app/api/router.py]:
    [bool(settings.livekit_ws_url and settings.agent_name)]. *)
Definition legacy_status_ok (s : Settings) : bool :=
  Py.str_truthy (if Py.str_truthy (livekit_ws_url s) then agent_name s
                 else livekit_ws_url s).

(** The metadata of a token issued on the default deployment at the first
    clock reading: the pieces of
    [{"source":"api","timestamp":"T+0","environment":"Environment.DEVELOPMENT"}]
    between its double quotes. *)
Definition lobby_agent_metadata : string :=
  String.concat Py.dq
    ["{"; "source"; ":"; "api"; ","; "timestamp"; ":"; "T+0"; ",";
     "environment"; ":"; "Environment.DEVELOPMENT"; "}"].

(** * Properties *)

(** ** Comparisons on the modelled floats *)

Lemma Qltb_true (a b : Q) : Qltb a b = true <-> (a < b)%Q.
Proof.
  unfold Qltb. rewrite negb_true_iff. split.
  - intros H. apply Qnot_le_lt. intros Hle.
    apply Qle_bool_iff in Hle. congruence.
  - intros H. destruct (Qle_bool b a) eqn:E; [|reflexivity].
    apply Qle_bool_iff in E. exfalso. exact (Qlt_not_le _ _ H E).
Qed.

Lemma Qltb_false (a b : Q) : Qltb a b = false <-> (b <= a)%Q.
Proof.
  unfold Qltb. rewrite negb_false_iff. apply Qle_bool_iff.
Qed.

Lemma Qgtb_Qltb (a b : Q) : Qgtb a b = Qltb b a.
Proof. reflexivity. Qed.

Lemma is_expired_true (ttl : Z) (now t : Q) :
  is_expired ttl now t = true <-> (inject_Z ttl < now - t)%Q.
Proof. unfold is_expired. rewrite Qgtb_Qltb. apply Qltb_true. Qed.

Lemma is_expired_false (ttl : Z) (now t : Q) :
  is_expired ttl now t = false <-> (now - t <= inject_Z ttl)%Q.
Proof. unfold is_expired. rewrite Qgtb_Qltb. apply Qltb_false. Qed.

(** An entry inside the suppression window is not expired. *)
Lemma fresh_not_expired (ttl : Z) (now t : Q) :
  (now - t < inject_Z ttl)%Q -> is_expired ttl now t = false.
Proof. intros H. apply is_expired_false. apply Qlt_le_weak, H. Qed.

(** ** The eviction sweep *)

Lemma lookup_evict_Some (ttl : Z) (now : Q) (m : gmap (string * string) Q)
    (k : string * string) (t : Q) :
  evict ttl now m !! k = Some t
  <-> m !! k = Some t /\ is_expired ttl now t = false.
Proof. unfold evict. rewrite map_lookup_filter_Some. reflexivity. Qed.

Lemma lookup_evict_None (ttl : Z) (now : Q) (m : gmap (string * string) Q)
    (k : string * string) :
  evict ttl now m !! k = None
  <-> forall t, m !! k = Some t -> is_expired ttl now t = true.
Proof.
  unfold evict. rewrite map_lookup_filter_None. split.
  - intros [Hn | Hall] t Ht; [congruence|].
    specialize (Hall t Ht). simpl in Hall.
    destruct (is_expired ttl now t); congruence.
  - intros H. destruct (m !! k) as [t|] eqn:E; [right | left; reflexivity].
    intros t' Ht'. injection Ht' as <-. simpl. rewrite (H t eq_refl).
    discriminate.
Qed.

(** The sweep only removes entries: what it keeps it keeps unchanged. *)
Lemma evict_subseteq (ttl : Z) (now : Q) (m : gmap (string * string) Q) :
  evict ttl now m ⊆ m.
Proof. unfold evict. apply map_filter_subseteq. Qed.

(** ** [should_skip]: the three ways a call can go *)

Lemma should_skip_fresh (now t : Q) (room agent : string) (c : DispatchCache) :
  _cache c !! (room, agent) = Some t ->
  (now - t < inject_Z (ttl_seconds c))%Q ->
  should_skip now room agent c
  = (true, {| ttl_seconds := ttl_seconds c;
              _cache := evict (ttl_seconds c) now (_cache c) |}).
Proof.
  intros Hk Hlt. unfold should_skip.
  assert (E : evict (ttl_seconds c) now (_cache c) !! (room, agent) = Some t).
  { apply lookup_evict_Some. split; [exact Hk | apply fresh_not_expired, Hlt]. }
  rewrite E. apply Qltb_true in Hlt. rewrite Hlt. reflexivity.
Qed.

Lemma should_skip_stale (now t : Q) (room agent : string) (c : DispatchCache) :
  _cache c !! (room, agent) = Some t ->
  (inject_Z (ttl_seconds c) <= now - t)%Q ->
  should_skip now room agent c
  = (false, {| ttl_seconds := ttl_seconds c;
               _cache := <[(room, agent) := now]>
                           (evict (ttl_seconds c) now (_cache c)) |}).
Proof.
  intros Hk Hle. unfold should_skip.
  destruct (evict (ttl_seconds c) now (_cache c) !! (room, agent))
    as [t'|] eqn:E; [|reflexivity].
  apply lookup_evict_Some in E as [Hk' _].
  assert (t' = t) as -> by congruence.
  apply Qltb_false in Hle. rewrite Hle. reflexivity.
Qed.

Lemma should_skip_absent (now : Q) (room agent : string) (c : DispatchCache) :
  _cache c !! (room, agent) = None ->
  should_skip now room agent c
  = (false, {| ttl_seconds := ttl_seconds c;
               _cache := <[(room, agent) := now]>
                           (evict (ttl_seconds c) now (_cache c)) |}).
Proof.
  intros Hk. unfold should_skip.
  destruct (evict (ttl_seconds c) now (_cache c) !! (room, agent))
    as [t'|] eqn:E; [|reflexivity].
  apply lookup_evict_Some in E as [Hk' _]. congruence.
Qed.

(** The answer of a call depends on the queried key's entry alone. *)
Lemma should_skip_answer (now : Q) (room agent : string) (c : DispatchCache) :
  fst (should_skip now room agent c)
  = match _cache c !! (room, agent) with
    | Some t => Qltb (now - t) (inject_Z (ttl_seconds c))
    | None => false
    end.
Proof.
  destruct (_cache c !! (room, agent)) as [t|] eqn:E.
  - destruct (Qltb (now - t) (inject_Z (ttl_seconds c))) eqn:L.
    + apply Qltb_true in L. rewrite (should_skip_fresh now t); auto.
    + apply Qltb_false in L. rewrite (should_skip_stale now t); auto.
  - rewrite should_skip_absent; auto.
Qed.

Lemma should_skip_ttl (now : Q) (room agent : string) (c : DispatchCache) :
  ttl_seconds (snd (should_skip now room agent c)) = ttl_seconds c.
Proof.
  unfold should_skip.
  destruct (evict _ _ _ !! _); [destruct (Qltb _ _)|]; reflexivity.
Qed.

(** ** The suppression window *)

(** C2: when the cache holds timestamp [t] for [(room, agent)] and
    [now - t] equals [ttl_seconds] exactly, [should_skip] answers [false] and
    records [now] for that key; and at any time a call on that key is
    suppressed only if its distance to [t] is strictly below [ttl_seconds]. *)
Theorem should_skip_ttl_boundary (now t : Q) (room agent : string)
    (c : DispatchCache) :
  _cache c !! (room, agent) = Some t ->
  (now - t == inject_Z (ttl_seconds c))%Q ->
  fst (should_skip now room agent c) = false
  /\ _cache (snd (should_skip now room agent c)) !! (room, agent) = Some now
  /\ (forall now' : Q,
        fst (should_skip now' room agent c) = true ->
        (now' - t < inject_Z (ttl_seconds c))%Q).
Proof.
  intros Hk Heq.
  assert (Hle : (inject_Z (ttl_seconds c) <= now - t)%Q).
  { rewrite Heq. apply Qle_refl. }
  rewrite (should_skip_stale now t room agent c Hk Hle). simpl.
  split; [reflexivity|]. split; [apply lookup_insert_eq|].
  intros now' Hskip. rewrite should_skip_answer, Hk in Hskip.
  apply Qltb_true, Hskip.
Qed.

Lemma should_skip_ttl_boundary_witness :
  fst (should_skip 3 "lobby" "py-agent" lobby_cache) = false
  /\ _cache (snd (should_skip 3 "lobby" "py-agent" lobby_cache))
       !! ("lobby", "py-agent") = Some 3%Q.
Proof.
  assert (Hk : _cache lobby_cache !! ("lobby", "py-agent") = Some 0%Q)
    by (vm_compute; reflexivity).
  assert (Hb : (3 - 0 == inject_Z (ttl_seconds lobby_cache))%Q)
    by (vm_compute; reflexivity).
  destruct (should_skip_ttl_boundary 3 0 "lobby" "py-agent" lobby_cache Hk Hb)
    as (Hf & Hrec & _).
  split; [exact Hf | exact Hrec].
Defined.

(** C3: when the cache holds a timestamp [t] for [(room, agent)] that is
    still inside the window ([now - t < ttl_seconds]), [should_skip] answers
    [true]; the cache it leaves is the old one minus the expired entries, so
    the entry of the key keeps [t] and every surviving entry is unchanged;
    and the suppressed call changes the answer of no later call on the key:
    the window is still measured from [t]. *)
Theorem should_skip_suppressed_frame (now t : Q) (room agent : string)
    (c : DispatchCache) :
  _cache c !! (room, agent) = Some t ->
  (now - t < inject_Z (ttl_seconds c))%Q ->
  let c' := snd (should_skip now room agent c) in
  fst (should_skip now room agent c) = true
  /\ ttl_seconds c' = ttl_seconds c
  /\ _cache c' !! (room, agent) = Some t
  /\ (forall k v,
        _cache c' !! k = Some v
        <-> _cache c !! k = Some v
            /\ is_expired (ttl_seconds c) now v = false)
  /\ (forall later : Q,
        fst (should_skip later room agent c')
        = fst (should_skip later room agent c)).
Proof.
  intros Hk Hlt c'. subst c'.
  rewrite (should_skip_fresh now t room agent c Hk Hlt). simpl.
  assert (Hkeep : evict (ttl_seconds c) now (_cache c) !! (room, agent)
                  = Some t).
  { apply lookup_evict_Some. split; [exact Hk | apply fresh_not_expired, Hlt]. }
  split; [reflexivity|]. split; [reflexivity|]. split; [exact Hkeep|].
  split.
  - intros k v. apply lookup_evict_Some.
  - intros later. rewrite !should_skip_answer. simpl.
    rewrite Hkeep, Hk. reflexivity.
Qed.

Lemma should_skip_suppressed_frame_witness :
  fst (should_skip 1 "lobby" "py-agent" lobby_cache) = true
  /\ _cache (snd (should_skip 1 "lobby" "py-agent" lobby_cache))
       !! ("lobby", "py-agent") = Some 0%Q.
Proof.
  assert (Hk : _cache lobby_cache !! ("lobby", "py-agent") = Some 0%Q)
    by (vm_compute; reflexivity).
  assert (Hlt : (1 - 0 < inject_Z (ttl_seconds lobby_cache))%Q)
    by (vm_compute; reflexivity).
  destruct (should_skip_suppressed_frame 1 0 "lobby" "py-agent" lobby_cache
              Hk Hlt) as (Ht & _ & Hsame & _).
  split; [exact Ht | exact Hsame].
Defined.

(** The scenario of the specification: accepted at 0, suppressed at 1, and
    accepted again at 3.5 with a window of 3 seconds. *)
Example non_extension_scenario :
  let c0 := DispatchCache_init 3 in
  let r1 := should_skip 0 "r" "a" c0 in
  let r2 := should_skip 1 "r" "a" (snd r1) in
  let r3 := should_skip (7 # 2) "r" "a" (snd r2) in
  (fst r1, fst r2, fst r3) = (false, true, false)
  /\ _cache (snd r2) !! ("r", "a") = Some 0%Q
  /\ _cache (snd r3) !! ("r", "a") = Some (7 # 2)%Q.
Proof. vm_compute. repeat split. Qed.

(** ** At most one accepted call per window *)

Lemma should_skip_lookup (now : Q) (room agent : string) (c : DispatchCache)
    (k : string * string) :
  _cache (snd (should_skip now room agent c)) !! k
  = if decide ((room, agent) = k) then
      if fst (should_skip now room agent c)
      then evict (ttl_seconds c) now (_cache c) !! k
      else Some now
    else evict (ttl_seconds c) now (_cache c) !! k.
Proof.
  unfold should_skip.
  destruct (evict (ttl_seconds c) now (_cache c) !! (room, agent))
    as [t|] eqn:E; [destruct (Qltb _ _)|]; cbn [fst snd _cache];
    destruct (decide ((room, agent) = k)) as [<-|Hne];
    rewrite ?lookup_insert_eq, ?lookup_insert_ne by exact Hne; reflexivity.
Qed.

Lemma window_inv_accept (now : Q) (room agent : string) (c : DispatchCache) :
  fst (should_skip now room agent c) = false ->
  window_inv (room, agent) now now (snd (should_skip now room agent c)).
Proof.
  intros Hf. split; [apply Qle_refl|].
  rewrite should_skip_lookup, Hf.
  destruct (decide _) as [_|Hne]; [apply Qle_refl | congruence].
Qed.

Lemma window_inv_step (k : string * string) (t1 tl now : Q)
    (room agent : string) (c : DispatchCache) :
  window_inv k t1 tl c ->
  (tl <= now)%Q ->
  window_inv k t1 now (snd (should_skip now room agent c)).
Proof.
  intros [Htl Hk] Hnow. split; [lra|].
  rewrite should_skip_ttl, should_skip_lookup.
  assert (Hev : match evict (ttl_seconds c) now (_cache c) !! k with
                | Some ts => (t1 <= ts)%Q
                | None => (inject_Z (ttl_seconds c) < now - t1)%Q
                end).
  { destruct (evict (ttl_seconds c) now (_cache c) !! k) as [ts|] eqn:E.
    - apply lookup_evict_Some in E as [E _]. rewrite E in Hk. exact Hk.
    - destruct (_cache c !! k) as [ts|] eqn:E'.
      + pose proof (proj1 (lookup_evict_None _ _ _ _) E ts E') as Hx.
        apply is_expired_true in Hx. lra.
      + lra. }
  destruct (decide _) as [_|_]; [|exact Hev].
  destruct (fst (should_skip now room agent c)); [exact Hev | lra].
Qed.

Lemma window_inv_run (k : string * string) (t1 t2 : Q)
    (calls : list (Q * (string * string))) :
  forall (tl : Q) (c : DispatchCache),
    window_inv k t1 tl c ->
    nondecreasing_from tl (calls ++ [(t2, k)]) ->
    window_inv k t1 t2 (run_calls calls c)
    /\ ttl_seconds (run_calls calls c) = ttl_seconds c.
Proof.
  induction calls as [|[now [room agent]] rest IH]; intros tl c Hinv Hmono.
  - cbn in *. destruct Hmono as [Hle _]. destruct Hinv as [H1 H2].
    split; [|reflexivity]. split; [lra|].
    destruct (_cache c !! k); [exact H2 | lra].
  - cbn [run_calls]. cbn in Hmono. destruct Hmono as [Hle Hrest].
    destruct (IH now (snd (should_skip now room agent c))
                (window_inv_step k t1 tl now room agent c Hinv Hle) Hrest)
      as [Hw Httl].
    split; [exact Hw|]. rewrite Httl. apply should_skip_ttl.
Qed.

(** X1: sequential core of the de-duplication guarantee.  On a clock that never
    goes back, whatever calls come in between, two accepted calls for one
    key are at least [ttl_seconds] apart. *)
Theorem accepted_calls_a_window_apart (c0 : DispatchCache)
    (room agent : string) (t1 t2 : Q) (calls : list (Q * (string * string))) :
  fst (should_skip t1 room agent c0) = false ->
  nondecreasing_from t1 (calls ++ [(t2, (room, agent))]) ->
  fst (should_skip t2 room agent
         (run_calls calls (snd (should_skip t1 room agent c0)))) = false ->
  (inject_Z (ttl_seconds c0) <= t2 - t1)%Q.
Proof.
  intros Hacc Hmono Hacc2.
  destruct (window_inv_run (room, agent) t1 t2 calls t1
              (snd (should_skip t1 room agent c0))
              (window_inv_accept t1 room agent c0 Hacc) Hmono)
    as [[Hle Hk] Httl].
  rewrite should_skip_ttl in Httl.
  rewrite should_skip_answer in Hacc2. rewrite Httl in Hk, Hacc2.
  destruct (_cache (run_calls calls _) !! (room, agent)) as [ts|].
  - apply Qltb_false in Hacc2. lra.
  - lra.
Qed.

Lemma accepted_calls_a_window_apart_witness :
  (inject_Z 3 <= (7 # 2) - 0)%Q.
Proof.
  apply (accepted_calls_a_window_apart (DispatchCache_init 3) "r" "a" 0 (7 # 2)
           [(1%Q, ("r", "a")); (2%Q, ("r2", "a"))]).
  - vm_compute. reflexivity.
  - cbn. repeat split; vm_compute; discriminate.
  - vm_compute. reflexivity.
Defined.

(** ** [AgentService.create_dispatch] *)

Section DispatchProperties.

Variable time_time : nat -> Q.
Variable LiveKitAPI_new : World -> exn + unit.
Variable lk_create_dispatch
  : World -> CreateAgentDispatchRequest -> exn + string.
Variable settings : Settings.

Local Abbreviation create_dispatch' :=
  (create_dispatch time_time LiveKitAPI_new lk_create_dispatch settings).

(** The cache decision taken by [create_dispatch' request] in state [w]. *)
Lemma create_dispatch_unfold (request : DispatchRequest) (w : World) :
  let agent := Py.or_default (dr_agent_name request) (agent_name settings) in
  let d := should_skip (time_time (ticks w)) (dr_room request) agent
             (dispatch_cache w) in
  create_dispatch' request w
  = if fst d then
      (inr {| dispatch_id := "skipped"; dp_room := dr_room request;
              dp_agent_name := agent;
              note := Some "duplicate-suppressed" |},
       set_cache (snd d) (tick w))
    else
      try_except
        (dispatch_id <- _create_livekit_dispatch LiveKitAPI_new
                          lk_create_dispatch (dr_room request) agent
                          (dr_metadata request);;
         ret {| dispatch_id := dispatch_id; dp_room := dr_room request;
                dp_agent_name := agent; note := None |})
        (λ e,
           if is_AgentDispatchError e then raise e
           else raise (AgentDispatchError
                         ("Failed to create agent dispatch: " ++ str_exn e)))
        (set_cache (snd d) (tick w)).
Proof.
  intros agent d. subst d agent.
  cbv [create_dispatch try_except bind cache_should_skip
         run_should_skip read_time ticks tick dispatch_cache].
  destruct (should_skip _ _ _ _) as [[] c']; reflexivity.
Qed.

(** C1: when the cache reports a recent duplicate, [create_dispatch']
    returns the suppressed outcome ([dispatch_id = "skipped"],
    [note = "duplicate-suppressed"]); the log of dispatch RPC calls is the
    one it started with, and the call does not end in
    [AgentDispatchError]. *)
Theorem create_dispatch_suppressed (request : DispatchRequest) (w : World) :
  fst (should_skip (time_time (ticks w)) (dr_room request)
         (Py.or_default (dr_agent_name request) (agent_name settings))
         (dispatch_cache w)) = true ->
  fst (create_dispatch' request w)
  = inr {| dispatch_id := "skipped";
           dp_room := dr_room request;
           dp_agent_name :=
             Py.or_default (dr_agent_name request) (agent_name settings);
           note := Some "duplicate-suppressed" |}
  /\ rpc_calls (snd (create_dispatch' request w)) = rpc_calls w
  /\ (forall detail,
        fst (create_dispatch' request w) <> inl (AgentDispatchError detail)).
Proof.
  intros Hskip. rewrite create_dispatch_unfold. cbv zeta.
  rewrite Hskip. cbn [fst snd]. split; [reflexivity|].
  split; [reflexivity|]. intros detail. discriminate.
Qed.

(** What a call adds to the RPC log: nothing, or one request. *)
Lemma create_dispatch_rpc_calls (request : DispatchRequest) (w : World) :
  let agent := Py.or_default (dr_agent_name request) (agent_name settings) in
  rpc_calls (snd (create_dispatch' request w)) = rpc_calls w
  \/ rpc_calls (snd (create_dispatch' request w))
     = {| cad_agent_name := agent; cad_room := dr_room request;
          cad_metadata := Py.or_default (dr_metadata request) "{}" |}
       :: rpc_calls w.
Proof.
  intros agent. rewrite create_dispatch_unfold. cbv zeta. fold agent.
  destruct (fst (should_skip _ _ _ _)); [left; reflexivity|].
  cbv [try_except bind _create_livekit_dispatch open_LiveKitAPI
         call_create_dispatch ret raise].
  destruct (LiveKitAPI_new _) as [e|[]].
  - left. destruct (is_AgentDispatchError e); reflexivity.
  - right. destruct (lk_create_dispatch _ _) as [e|i];
      [destruct (is_AgentDispatchError e)|]; reflexivity.
Qed.

Lemma create_dispatch_cache (request : DispatchRequest) (w : World) :
  dispatch_cache (snd (create_dispatch' request w))
  = snd (should_skip (time_time (ticks w)) (dr_room request)
           (Py.or_default (dr_agent_name request) (agent_name settings))
           (dispatch_cache w)).
Proof.
  rewrite create_dispatch_unfold. cbv zeta.
  destruct (fst (should_skip _ _ _ _)); [reflexivity|].
  cbv [try_except bind _create_livekit_dispatch open_LiveKitAPI
         call_create_dispatch ret raise].
  destruct (LiveKitAPI_new _) as [e|[]].
  - destruct (is_AgentDispatchError e); reflexivity.
  - destruct (lk_create_dispatch _ _) as [e|i];
      [destruct (is_AgentDispatchError e)|]; reflexivity.
Qed.

Lemma create_dispatch_agent_name (request : DispatchRequest) (w : World)
    (resp : DispatchResponse) :
  fst (create_dispatch' request w) = inr resp ->
  dp_agent_name resp
  = Py.or_default (dr_agent_name request) (agent_name settings).
Proof.
  rewrite create_dispatch_unfold. cbv zeta.
  destruct (fst (should_skip _ _ _ _)).
  - cbn [fst]. intros [= <-]. reflexivity.
  - cbv [try_except bind _create_livekit_dispatch open_LiveKitAPI
           call_create_dispatch ret raise].
    destruct (LiveKitAPI_new _) as [e|[]].
    + destruct (is_AgentDispatchError e); discriminate.
    + destruct (lk_create_dispatch _ _) as [e|i];
        [destruct (is_AgentDispatchError e); discriminate|].
      cbn [fst]. intros [= <-]. reflexivity.
Qed.

(** C10: a request whose [agent_name] is the empty string is served
    exactly as the same request without [agent_name]: same outcome and
    same effects.  The cache is consulted under the key
    [(room, settings.agent_name)], every RPC request the call sends names
    [settings.agent_name], and so does the response.  The empty string
    passes the model's validation whenever the room does. *)
Theorem create_dispatch_empty_agent_name (room : string)
    (metadata : option string) (w : World) :
  let request :=
    {| dr_room := room; dr_agent_name := Some ""; dr_metadata := metadata |} in
  let absent :=
    {| dr_room := room; dr_agent_name := None; dr_metadata := metadata |} in
  create_dispatch' request w = create_dispatch' absent w
  /\ DispatchRequest_valid request = DispatchRequest_valid absent
  /\ dispatch_cache (snd (create_dispatch' request w))
     = snd (should_skip (time_time (ticks w)) room (agent_name settings)
              (dispatch_cache w))
  /\ (rpc_calls (snd (create_dispatch' request w)) = rpc_calls w
      \/ rpc_calls (snd (create_dispatch' request w))
         = {| cad_agent_name := agent_name settings; cad_room := room;
              cad_metadata := Py.or_default metadata "{}" |}
           :: rpc_calls w)
  /\ (forall resp,
        fst (create_dispatch' request w) = inr resp ->
        dp_agent_name resp = agent_name settings).
Proof.
  intros request absent.
  split; [reflexivity|]. split.
  { unfold DispatchRequest_valid. cbn. rewrite !andb_true_r. reflexivity. }
  split; [apply (create_dispatch_cache request)|].
  split; [apply (create_dispatch_rpc_calls request)|].
  intros resp. apply (create_dispatch_agent_name request).
Qed.

End DispatchProperties.

(** ** The dispatch service on the concrete deployment *)

Lemma create_dispatch_suppressed_witness :
  let request :=
    {| dr_room := "lobby"; dr_agent_name := None; dr_metadata := Some "{}" |} in
  let run := create_dispatch clock_seconds api_ok rpc_ok default_settings
               request busy_world in
  fst run = inr {| dispatch_id := "skipped"; dp_room := "lobby";
                   dp_agent_name := "py-agent";
                   note := Some "duplicate-suppressed" |}
  /\ rpc_calls (snd run) = [].
Proof.
  intros request run.
  assert (Hskip :
    fst (should_skip (clock_seconds (ticks busy_world)) (dr_room request)
           (Py.or_default (dr_agent_name request) (agent_name default_settings))
           (dispatch_cache busy_world)) = true)
    by (vm_compute; reflexivity).
  destruct (create_dispatch_suppressed clock_seconds api_ok rpc_ok
              default_settings request busy_world Hskip) as (Hr & Hlog & _).
  split; [exact Hr | exact Hlog].
Defined.

(** Two rapid dispatches into the lobby: the first reaches the RPC, the
    second is suppressed and the RPC log still has one entry. *)
Example two_rapid_dispatches :
  let request :=
    {| dr_room := "lobby"; dr_agent_name := Some "py-agent";
       dr_metadata := None |} in
  let run := create_dispatch clock_seconds api_ok rpc_ok default_settings in
  let r1 := run request fresh_world in
  let r2 := run request (snd r1) in
  option_map dispatch_id (match fst r1 with inr r => Some r | _ => None end)
    = Some "AD_0"
  /\ option_map dispatch_id (match fst r2 with inr r => Some r | _ => None end)
    = Some "skipped"
  /\ length (rpc_calls (snd r2)) = 1%nat.
Proof. vm_compute. repeat split. Qed.

(** ** [TokenService.generate_token] *)

Section TokenProperties.

Variable utcnow : nat -> Z.
Variable isoformat : Z -> string.
Variable AccessToken_new : string -> string -> exn + unit.
Variable to_jwt : World -> AccessToken -> exn + string.
Variable settings : Settings.

Local Abbreviation generate_token' :=
  (generate_token utcnow isoformat AccessToken_new to_jwt settings).
Local Abbreviation request_builder' := (request_builder settings).
Local Abbreviation request_room_config' :=
  (request_room_config utcnow isoformat settings).

Lemma reraised_is_TokenGenerationError (e : exn) :
  is_TokenGenerationError (reraised e) = true.
Proof. unfold reraised. destruct e; reflexivity. Qed.

(** [generate_token'], one decision after the other. *)
Lemma generate_token_unfold (request : TokenRequest) (w : World) :
  generate_token' request w
  = if (tr_ttl_minutes request >? max_token_ttl_minutes settings)%Z then
      (inl (ttl_exceeds_maximum settings), w)
    else
      match AccessToken_new (livekit_api_key settings)
              (livekit_api_secret settings) with
      | inl e => (inl (reraised e), w)
      | inr _ =>
          let w1 := before_signing request w in
          let t := request_builder' request (request_room_config' request w) in
          match to_jwt w1 t with
          | inl e => (inl (reraised e), log_jwt t w1)
          | inr jwt =>
              match tr_identity request with
              | Some i =>
                  (inr {| token := jwt;
                          ws_url := livekit_ws_url settings;
                          room := tr_room request;
                          identity := i;
                          ttl_minutes := tr_ttl_minutes request;
                          expires_at :=
                            (utcnow (ticks w1)
                             + timedelta_minutes (tr_ttl_minutes request))%Z
                       |},
                   tick (log_jwt t w1))
              | None =>
                  (inl (TokenGenerationError
                          ("Failed to generate token: "
                           ++ "1 validation error for TokenResponse")),
                   tick (log_jwt t w1))
              end
          end
      end.
Proof.
  cbv [generate_token try_except bind lift_result ret raise
         _build_agent_metadata read_utcnow call_to_jwt TokenResponse_new
         before_signing request_room_config
       request_builder request_grants
         base_grants set_can_publish_sources with_room_config reraised].
  destruct (tr_ttl_minutes request >? max_token_ttl_minutes settings)%Z;
    [reflexivity|].
  destruct (AccessToken_new _ _) as [e|[]];
    [destruct (is_TokenGenerationError e); reflexivity|].
  destruct (tr_dispatch_agent request), (tr_mic_only request);
    cbn [ticks tick log_jwt];
    (destruct (to_jwt _ _) as [e|jwt];
     [destruct (is_TokenGenerationError e); reflexivity|]);
    destruct (tr_identity request); reflexivity.
Qed.

(** C4: a request whose [ttl_minutes] is above
    [settings.max_token_ttl_minutes] ends in [TokenGenerationError]
    ("TTL exceeds maximum allowed: ... minutes"); the state is left as it
    was, so [to_jwt] has not been called. *)
Theorem generate_token_ttl_exceeds (request : TokenRequest) (w : World) :
  (max_token_ttl_minutes settings < tr_ttl_minutes request)%Z ->
  fst (generate_token' request w)
  = inl (TokenGenerationError
           ("TTL exceeds maximum allowed: "
            ++ Py.str_of_int (max_token_ttl_minutes settings) ++ " minutes"))
  /\ snd (generate_token' request w) = w
  /\ jwt_calls (snd (generate_token' request w)) = jwt_calls w.
Proof.
  intros Hgt. rewrite generate_token_unfold.
  assert (E : (tr_ttl_minutes request >? max_token_ttl_minutes settings)%Z
              = true) by (apply Z.gtb_lt; exact Hgt).
  rewrite E. repeat split.
Qed.

(** Every way [generate_token'] can fail is a [TokenGenerationError]. *)
Lemma generate_token_raises_TokenGenerationError (request : TokenRequest)
    (w : World) (e : exn) :
  fst (generate_token' request w) = inl e ->
  is_TokenGenerationError e = true.
Proof.
  rewrite generate_token_unfold.
  destruct (_ >? _)%Z; [intros [= <-]; reflexivity|].
  destruct (AccessToken_new _ _) as [e1|[]];
    [intros [= <-]; apply reraised_is_TokenGenerationError|].
  cbv zeta. destruct (to_jwt _ _) as [e2|jwt];
    [intros [= <-]; apply reraised_is_TokenGenerationError|].
  destruct (tr_identity request); [discriminate|].
  intros [= <-]; reflexivity.
Qed.

(** A successful call has signed exactly one token: the builder of the
    request, in the state reached before signing. *)
Lemma generate_token_success (request : TokenRequest) (w : World)
    (resp : TokenResponse) :
  fst (generate_token' request w) = inr resp ->
  let w1 := before_signing request w in
  let t := request_builder' request (request_room_config' request w) in
  to_jwt w1 t = inr (token resp)
  /\ snd (generate_token' request w) = tick (log_jwt t w1)
  /\ tr_identity request = Some (identity resp)
  /\ room resp = tr_room request
  /\ ttl_minutes resp = tr_ttl_minutes request
  /\ expires_at resp
     = (utcnow (ticks w1) + timedelta_minutes (tr_ttl_minutes request))%Z.
Proof.
  rewrite generate_token_unfold.
  destruct (_ >? _)%Z; [discriminate|].
  destruct (AccessToken_new _ _) as [e1|[]]; [discriminate|].
  cbv zeta. destruct (to_jwt _ _) as [e2|jwt]; [discriminate|].
  destruct (tr_identity request); [|discriminate].
  cbn [fst snd]. intros [= <-]. repeat split.
Qed.

(** C7: the token of a successful call carries room-join, publish and
    subscribe grants for the requested room; its publish sources are
    exactly [["microphone"]] when [mic_only] is set, and unset otherwise.
    The token in the response is the one signed from these grants. *)
Theorem generate_token_grants (request : TokenRequest) (w : World)
    (resp : TokenResponse) :
  fst (generate_token' request w) = inr resp ->
  exists (t : AccessToken) (w1 : World),
    jwt_calls (snd (generate_token' request w)) = t :: jwt_calls w
    /\ to_jwt w1 t = inr (token resp)
    /\ room resp = tr_room request
    /\ room_join (at_grants t) = true
    /\ can_publish (at_grants t) = true
    /\ can_subscribe (at_grants t) = true
    /\ vg_room (at_grants t) = tr_room request
    /\ can_publish_sources (at_grants t)
       = if tr_mic_only request then Some ["microphone"] else None.
Proof.
  intros Hok. apply generate_token_success in Hok.
  cbv zeta in Hok. destruct Hok as (Hjwt & Hw & _ & Hroom & _).
  eexists _, _. split.
  { rewrite Hw. unfold before_signing.
    destruct (tr_dispatch_agent request); reflexivity. }
  split; [exact Hjwt|]. split; [exact Hroom|]. repeat split.
Qed.

(** C8: when [ttl_minutes] does not exceed the configured maximum, the
    identity has been resolved, and the signing library accepts the
    credentials and the builder of this call, [generate_token'] returns a
    response.  Its [expires_at] is a reading [n] of the clock made during
    the call plus [ttl_minutes] minutes, its [ttl_minutes] is the
    request's, and the one token signed for it was given the TTL
    [timedelta(minutes=ttl_minutes)] of the same value. *)
Theorem generate_token_expiry (request : TokenRequest) (w : World)
    (i : string) :
  (tr_ttl_minutes request <= max_token_ttl_minutes settings)%Z ->
  tr_identity request = Some i ->
  AccessToken_new (livekit_api_key settings) (livekit_api_secret settings)
  = inr tt ->
  (exists jwt,
     to_jwt (before_signing request w)
       (request_builder' request (request_room_config' request w))
     = inr jwt) ->
  exists (resp : TokenResponse) (n : nat) (t : AccessToken),
    fst (generate_token' request w) = inr resp
    /\ (ticks w <= n < ticks (snd (generate_token' request w)))%nat
    /\ expires_at resp
       = (utcnow n + timedelta_minutes (tr_ttl_minutes request))%Z
    /\ ttl_minutes resp = tr_ttl_minutes request
    /\ identity resp = i
    /\ jwt_calls (snd (generate_token' request w)) = t :: jwt_calls w
    /\ at_ttl t = timedelta_minutes (tr_ttl_minutes request).
Proof.
  intros Hle Hid Hnew [jwt Hjwt]. rewrite generate_token_unfold.
  assert (E : (tr_ttl_minutes request >? max_token_ttl_minutes settings)%Z
              = false).
  { destruct (_ >? _)%Z eqn:G; [|reflexivity].
    apply Z.gtb_lt in G. lia. }
  rewrite E, Hnew. cbv zeta. rewrite Hjwt, Hid. cbn [fst snd].
  eexists _, (ticks (before_signing request w)), _.
  split; [reflexivity|].
  split.
  { unfold before_signing. destruct (tr_dispatch_agent request);
      cbn [ticks tick log_jwt]; lia. }
  split; [reflexivity|]. split; [reflexivity|]. split; [reflexivity|].
  split.
  - unfold before_signing. destruct (tr_dispatch_agent request); reflexivity.
  - reflexivity.
Qed.

(** C6, as the code has it: the token of a successful call with
    [dispatch_agent] set embeds one instruction, naming
    [settings.agent_name]; its metadata is the text
    [_build_agent_metadata] makes from a clock reading of this very call
    (the first one).  Nothing in a [TokenRequest] can name another
    agent. *)
Theorem generate_token_dispatch_instruction (request : TokenRequest)
    (w : World) (resp : TokenResponse) :
  tr_dispatch_agent request = true ->
  fst (generate_token' request w) = inr resp ->
  exists t : AccessToken,
    jwt_calls (snd (generate_token' request w)) = t :: jwt_calls w
    /\ dispatch_instructions t
       = [ {| rad_agent_name := agent_name settings;
              rad_metadata :=
                agent_metadata_text isoformat settings (utcnow (ticks w)) |} ]
    /\ (ticks w < ticks (snd (generate_token' request w)))%nat.
Proof.
  intros Hd Hok. apply generate_token_success in Hok.
  cbv zeta in Hok. destruct Hok as (_ & Hw & _).
  rewrite Hw. unfold before_signing, request_room_config.
rewrite Hd.
  eexists. split; [reflexivity|]. split; [reflexivity|].
  cbn [ticks tick log_jwt]. lia.
Qed.

(** Without [dispatch_agent] the token embeds no instruction. *)
Lemma generate_token_no_instruction (request : TokenRequest) (w : World)
    (resp : TokenResponse) :
  tr_dispatch_agent request = false ->
  fst (generate_token' request w) = inr resp ->
  exists t : AccessToken,
    jwt_calls (snd (generate_token' request w)) = t :: jwt_calls w
    /\ dispatch_instructions t = [].
Proof.
  intros Hd Hok. apply generate_token_success in Hok.
  cbv zeta in Hok. destruct Hok as (_ & Hw & _).
  rewrite Hw. unfold before_signing, request_room_config.
rewrite Hd.
  eexists. split; reflexivity.
Qed.

(** [generate_token'] reads neither [max_room_name_length] nor
    [max_identity_length]. *)
Lemma generate_token_ignores_length_limits (r i : Z)
    (request : TokenRequest) (w : World) :
  generate_token utcnow isoformat AccessToken_new to_jwt
    (with_length_limits r i settings) request w
  = generate_token' request w.
Proof. reflexivity. Qed.

(** The same through [POST /token], which resolves the identity first: no
    assumption on the request's identity is left. *)
Lemma create_token_expiry (token_urlsafe : World -> string)
    (request : TokenRequest) (w : World) :
  let r := resolved token_urlsafe request w in
  (tr_ttl_minutes request <= max_token_ttl_minutes settings)%Z ->
  AccessToken_new (livekit_api_key settings) (livekit_api_secret settings)
  = inr tt ->
  (exists jwt,
     to_jwt (before_signing r w) (request_builder' r (request_room_config' r w))
     = inr jwt) ->
  exists (resp : TokenResponse) (n : nat),
    fst (create_token utcnow isoformat AccessToken_new to_jwt settings
           token_urlsafe request w) = inr resp
    /\ tr_identity r = Some (identity resp)
    /\ (ticks w <= n)%nat
    /\ expires_at resp
       = (utcnow n + timedelta_minutes (tr_ttl_minutes request))%Z.
Proof.
  intros r Hle Hnew [jwt Hjwt].
  assert (Hid : exists i, tr_identity r = Some i).
  { unfold r, resolved. cbn [tr_identity].
    destruct (tr_identity request) as [i|]; cbn; [|eauto].
    destruct (Py.str_truthy i); eauto. }
  destruct Hid as [i Hid].
  assert (Hrun : create_token utcnow isoformat AccessToken_new to_jwt settings
                   token_urlsafe request w
                 = to_http (generate_token' r) w).
  { cbv [create_token to_http try_except bind resolve_identity ret].
    unfold r, resolved.
    destruct (Py.truthy (tr_identity request)); reflexivity. }
  assert (E : (tr_ttl_minutes r >? max_token_ttl_minutes settings)%Z = false).
  { destruct (_ >? _)%Z eqn:G; [|reflexivity].
    apply Z.gtb_lt in G. cbn [r resolved tr_ttl_minutes] in G. lia. }
  rewrite Hrun. cbv [to_http try_except].
  rewrite generate_token_unfold, E, Hnew. cbv zeta. rewrite Hjwt, Hid.
  cbn [fst].
  exists {| token := jwt; ws_url := livekit_ws_url settings;
            room := tr_room r; identity := i;
            ttl_minutes := tr_ttl_minutes r;
            expires_at :=
              (utcnow (ticks (before_signing r w))
               + timedelta_minutes (tr_ttl_minutes r))%Z |},
         (ticks (before_signing r w)).
  split; [reflexivity|]. split; [reflexivity|]. split; [|reflexivity].
  unfold before_signing. destruct (tr_dispatch_agent r);
    cbn [ticks tick]; lia.
Qed.

End TokenProperties.

(** ** The token service on the concrete deployment *)

Lemma generate_token_ttl_exceeds_witness :
  TokenRequest_valid lobby_request = true
  /\ fst (generate_token clock_utc iso_stub new_ok jwt_ok half_hour_settings
            lobby_request fresh_world)
     = inl (TokenGenerationError "TTL exceeds maximum allowed: 30 minutes")
  /\ jwt_calls (snd (generate_token clock_utc iso_stub new_ok jwt_ok
                       half_hour_settings lobby_request fresh_world)) = [].
Proof.
  assert (Hgt : (max_token_ttl_minutes half_hour_settings
                 < tr_ttl_minutes lobby_request)%Z) by (vm_compute; reflexivity).
  destruct (generate_token_ttl_exceeds clock_utc iso_stub new_ok jwt_ok
              half_hour_settings lobby_request fresh_world Hgt)
    as (Hr & _ & Hlog).
  split; [vm_compute; reflexivity|]. split; [exact Hr | exact Hlog].
Defined.

Lemma lobby_token_issued :
  fst (generate_token clock_utc iso_stub new_ok jwt_ok default_settings
         lobby_request fresh_world) = inr lobby_response.
Proof. vm_compute. reflexivity. Qed.

Lemma generate_token_grants_witness :
  exists (t : AccessToken) (w1 : World),
    jwt_calls (snd (generate_token clock_utc iso_stub new_ok jwt_ok
                      default_settings lobby_request fresh_world)) = [t]
    /\ jwt_ok w1 t = inr "jwt-for-lobby"
    /\ room_join (at_grants t) = true
    /\ can_publish (at_grants t) = true
    /\ can_subscribe (at_grants t) = true
    /\ vg_room (at_grants t) = "lobby"
    /\ can_publish_sources (at_grants t) = Some ["microphone"].
Proof.
  destruct (generate_token_grants clock_utc iso_stub new_ok jwt_ok
              default_settings lobby_request fresh_world lobby_response
              lobby_token_issued)
    as (t & w1 & Hlog & Hjwt & _ & Hj & Hp & Hs & Hroom & Hsrc).
  exists t, w1. repeat split; assumption.
Defined.

Lemma generate_token_expiry_witness :
  TokenRequest_valid lobby_request_with_agent = true
  /\ exists (resp : TokenResponse) (t : AccessToken),
       fst (generate_token clock_utc iso_stub new_ok jwt_ok default_settings
              lobby_request_with_agent fresh_world) = inr resp
       /\ ttl_minutes resp = 60%Z
       /\ jwt_calls (snd (generate_token clock_utc iso_stub new_ok jwt_ok
                            default_settings lobby_request_with_agent
                            fresh_world)) = [t]
       /\ at_ttl t = timedelta_minutes 60.
Proof.
  split; [vm_compute; reflexivity|].
  assert (Hle : (tr_ttl_minutes lobby_request_with_agent
                 <= max_token_ttl_minutes default_settings)%Z)
    by (vm_compute; discriminate).
  assert (Hid : tr_identity lobby_request_with_agent = Some "alice")
    by reflexivity.
  assert (Hnew : new_ok (livekit_api_key default_settings)
                   (livekit_api_secret default_settings) = inr tt)
    by reflexivity.
  assert (Hjwt : exists jwt,
             jwt_ok (before_signing lobby_request_with_agent fresh_world)
               (request_builder default_settings lobby_request_with_agent
                  (request_room_config clock_utc iso_stub default_settings
                     lobby_request_with_agent fresh_world))
             = inr jwt)
    by (eexists; reflexivity).
  destruct (generate_token_expiry clock_utc iso_stub new_ok jwt_ok
              default_settings lobby_request_with_agent fresh_world "alice"
              Hle Hid Hnew Hjwt)
    as (resp & n & t & Hr & _ & _ & Httl & _ & Hlog & Hat).
  exists resp, t. repeat split; assumption.
Defined.

Lemma lobby_token_with_agent_issued :
  fst (generate_token clock_utc iso_stub new_ok jwt_ok default_settings
         lobby_request_with_agent fresh_world)
  = inr {| token := "jwt-for-lobby"; ws_url := "wss://voice.example.org";
           room := "lobby"; identity := "alice"; ttl_minutes := 60;
           expires_at := 3601000000 |}.
Proof. vm_compute. reflexivity. Qed.

Lemma generate_token_dispatch_instruction_witness :
  exists t : AccessToken,
    jwt_calls (snd (generate_token clock_utc iso_stub new_ok jwt_ok
                      default_settings lobby_request_with_agent fresh_world))
    = [t]
    /\ map rad_agent_name (dispatch_instructions t) = ["py-agent"]
    /\ map rad_metadata (dispatch_instructions t) = [lobby_agent_metadata].
Proof.
  destruct (generate_token_dispatch_instruction clock_utc iso_stub new_ok
              jwt_ok default_settings lobby_request_with_agent fresh_world _
              eq_refl lobby_token_with_agent_issued)
    as (t & Hlog & Hins & _).
  exists t. split; [exact Hlog|]. rewrite Hins. split; reflexivity.
Defined.

(** C6 fails as stated: a caller whose dispatch context names
    ["support-agent"] and who asks for a token with [dispatch_agent] gets an
    instruction for ["py-agent"], the configured default; a [TokenRequest]
    has no field through which the override could reach [generate_token]. *)
Lemma token_dispatch_override_ignored :
  exists a : RoomAgentDispatch,
    map dispatch_instructions
      (jwt_calls (snd (generate_token clock_utc iso_stub new_ok jwt_ok
                         default_settings lobby_request_with_agent
                         fresh_world)))
    = [[a]]
    /\ rad_agent_name a = "py-agent"
    /\ spec_instruction_agent_name (Some "support-agent") default_settings
       = "support-agent"
    /\ rad_agent_name a
       <> spec_instruction_agent_name (Some "support-agent") default_settings.
Proof.
  eexists. split; [vm_compute; reflexivity|].
  split; [reflexivity|]. split; [reflexivity|]. discriminate.
Qed.

(** C5, on the code: with room names limited to five characters, the
    ten-character room ["lobby-room"] is refused by
    [validate_token_request], yet [generate_token] and [GET /token] issue a
    token for it: the issuance path never runs the length checks. *)
Example length_limits_not_enforced :
  let request :=
    {| tr_room := "lobby-room"; tr_identity := Some "alice"; tr_name := None;
       tr_ttl_minutes := 60; tr_mic_only := true;
       tr_dispatch_agent := false |} in
  let issued :=
    {| token := "jwt-for-lobby-room"; ws_url := "wss://voice.example.org";
       room := "lobby-room"; identity := "alice"; ttl_minutes := 60;
       expires_at := 3600000000 |} in
  Settings_valid short_rooms_settings = true
  /\ TokenRequest_valid request = true
  /\ (len (tr_room request) >? max_room_name_length short_rooms_settings)%Z
     = true
  /\ fst (validate_token_request short_rooms_settings request fresh_world)
     = inl (TokenGenerationError "Room name exceeds maximum length: 5")
  /\ fst (generate_token clock_utc iso_stub new_ok jwt_ok short_rooms_settings
            request fresh_world) = inr issued
  /\ fst (get_token clock_utc iso_stub new_ok jwt_ok short_rooms_settings
            urlsafe_stub "lobby-room" (Some "alice") None 60 true false
            fresh_world) = inr issued.
Proof. vm_compute. repeat split. Qed.

(** * Further properties of the dispatch path *)

Section DispatchPathProperties.

Variable time_time : nat -> Q.
Variable LiveKitAPI_new : World -> exn + unit.
Variable lk_create_dispatch
  : World -> CreateAgentDispatchRequest -> exn + string.
Variable settings : Settings.

Local Abbreviation create_dispatch' :=
  (create_dispatch time_time LiveKitAPI_new lk_create_dispatch settings).
Local Abbreviation endpoint' :=
  (endpoint_create_dispatch time_time LiveKitAPI_new lk_create_dispatch
     settings).
Local Abbreviation decision' := (cache_decision time_time settings).
Local Abbreviation checked' := (after_cache_check time_time settings).
Local Abbreviation rpc_request' := (rpc_request settings).

(** [create_dispatch], one decision after the other. *)
Lemma create_dispatch_cases (request : DispatchRequest) (w : World) :
  create_dispatch' request w
  = if fst (decision' request w) then
      (inr {| dispatch_id := "skipped"; dp_room := dr_room request;
              dp_agent_name := effective_agent settings request;
              note := Some "duplicate-suppressed" |},
       checked' request w)
    else
      match LiveKitAPI_new (checked' request w) with
      | inl e => (inl (dispatch_reraised e), checked' request w)
      | inr _ =>
          match lk_create_dispatch (checked' request w)
                  (rpc_request' request) with
          | inl e =>
              (inl (dispatch_reraised e),
               log_rpc (rpc_request' request) (checked' request w))
          | inr id =>
              (inr {| dispatch_id := id; dp_room := dr_room request;
                      dp_agent_name := effective_agent settings request;
                      note := None |},
               log_rpc (rpc_request' request) (checked' request w))
          end
      end.
Proof.
  rewrite create_dispatch_unfold. cbv zeta.
  unfold cache_decision, after_cache_check, cache_decision, rpc_request,
    effective_agent, dispatch_reraised.
  destruct (fst (should_skip _ _ _ _)); [reflexivity|].
  cbv [try_except bind _create_livekit_dispatch open_LiveKitAPI
         call_create_dispatch ret raise].
  destruct (LiveKitAPI_new _) as [e|[]];
    [destruct (is_AgentDispatchError e); reflexivity|].
  destruct (lk_create_dispatch _ _) as [e|id];
    [destruct (is_AgentDispatchError e); reflexivity | reflexivity].
Qed.

Lemma dispatch_reraised_is_AgentDispatchError (e : exn) :
  is_AgentDispatchError (dispatch_reraised e) = true.
Proof. unfold dispatch_reraised. destruct e; reflexivity. Qed.

Lemma create_dispatch_error_class (request : DispatchRequest) (w : World)
    (e : exn) :
  fst (create_dispatch' request w) = inl e -> is_AgentDispatchError e = true.
Proof.
  rewrite create_dispatch_cases.
  destruct (fst (decision' request w)); [discriminate|].
  destruct (LiveKitAPI_new _) as [e1|u];
    [intros [= <-]; apply dispatch_reraised_is_AgentDispatchError|].
  destruct (lk_create_dispatch _ _) as [e2|id]; [|discriminate].
  intros [= <-]; apply dispatch_reraised_is_AgentDispatchError.
Qed.

(** X4: whatever goes wrong in [create_dispatch] comes out as an
    [AgentDispatchError].  A failure happens only on the path that was not
    suppressed, and is what the LiveKit client or the RPC raised: passed on
    as it is when it is an [AgentDispatchError], and wrapped with the text
    ["Failed to create agent dispatch: "] before its message otherwise. *)
Theorem create_dispatch_failure (request : DispatchRequest) (w : World)
    (e : exn) :
  fst (create_dispatch' request w) = inl e ->
  is_AgentDispatchError e = true
  /\ fst (decision' request w) = false
  /\ exists e0 : exn,
       e = dispatch_reraised e0
       /\ (LiveKitAPI_new (checked' request w) = inl e0
           \/ lk_create_dispatch (checked' request w) (rpc_request' request)
              = inl e0).
Proof.
  rewrite create_dispatch_cases.
  destruct (fst (decision' request w)); [discriminate|].
  destruct (LiveKitAPI_new _) as [e1|u] eqn:Hapi.
  - intros [= <-]. split; [apply dispatch_reraised_is_AgentDispatchError|].
    split; [reflexivity|]. exists e1. split; [reflexivity | left; reflexivity].
  - destruct (lk_create_dispatch _ _) as [e2|id] eqn:Hrpc; [|discriminate].
    intros [= <-]. split; [apply dispatch_reraised_is_AgentDispatchError|].
    split; [reflexivity|]. exists e2. split; [reflexivity | right; reflexivity].
Qed.

(** X5: the dispatch is recorded in the cache before the RPC is tried, and a
    failure does not take it back.  So after a failed [create_dispatch] the
    cache holds the key with the time of the failed call, and the same
    request made again inside the window is answered ["skipped"] without
    any RPC, although no dispatch was ever created. *)
Theorem failed_dispatch_blocks_retry (request : DispatchRequest)
    (w w2 : World) (e : exn) :
  fst (create_dispatch' request w) = inl e ->
  dispatch_cache w2 = dispatch_cache (snd (create_dispatch' request w)) ->
  (time_time (ticks w2) - time_time (ticks w)
   < inject_Z (ttl_seconds (dispatch_cache w)))%Q ->
  _cache (dispatch_cache (snd (create_dispatch' request w)))
    !! (dr_room request, effective_agent settings request)
  = Some (time_time (ticks w))
  /\ fst (create_dispatch' request w2)
     = inr {| dispatch_id := "skipped"; dp_room := dr_room request;
              dp_agent_name := effective_agent settings request;
              note := Some "duplicate-suppressed" |}
  /\ rpc_calls (snd (create_dispatch' request w2)) = rpc_calls w2.
Proof.
  intros Hfail Hsame Hlt.
  assert (Hdec : fst (decision' request w) = false).
  { revert Hfail. rewrite create_dispatch_cases.
    destruct (fst (decision' request w)); [discriminate | reflexivity]. }
  assert (Hcache : dispatch_cache (snd (create_dispatch' request w))
                   = snd (decision' request w))
    by apply create_dispatch_cache.
  assert (Hk : _cache (snd (decision' request w))
                 !! (dr_room request, effective_agent settings request)
               = Some (time_time (ticks w))).
  { unfold cache_decision in *. rewrite should_skip_lookup, Hdec.
    destruct (decide _) as [_|Hne]; [reflexivity | congruence]. }
  rewrite Hcache. split; [exact Hk|].
  assert (Hskip : decision' request w2
                  = (true,
                     {| ttl_seconds := ttl_seconds (dispatch_cache w2);
                        _cache := evict (ttl_seconds (dispatch_cache w2))
                                    (time_time (ticks w2))
                                    (_cache (dispatch_cache w2)) |})).
  { unfold cache_decision at 1.
    apply (should_skip_fresh _ (time_time (ticks w))).
    - rewrite Hsame, Hcache. exact Hk.
    - rewrite Hsame, Hcache. unfold cache_decision.
      rewrite should_skip_ttl. exact Hlt. }
  rewrite create_dispatch_cases, Hskip. cbn [fst snd].
  split; [reflexivity|]. unfold after_cache_check. reflexivity.
Qed.

(** X6: a request that is not suppressed is tried once and never retried:
    once the LiveKit client is open, the call adds exactly one request to
    the RPC log whether the RPC succeeds or fails, and when the RPC answers
    with an id the response carries that id and no note. *)
Theorem create_dispatch_single_attempt (request : DispatchRequest)
    (w : World) :
  fst (decision' request w) = false ->
  LiveKitAPI_new (checked' request w) = inr tt ->
  rpc_calls (snd (create_dispatch' request w))
  = rpc_request' request :: rpc_calls w
  /\ (forall id : string,
        lk_create_dispatch (checked' request w) (rpc_request' request)
        = inr id ->
        fst (create_dispatch' request w)
        = inr {| dispatch_id := id; dp_room := dr_room request;
                 dp_agent_name := effective_agent settings request;
                 note := None |})
  /\ (forall e0 : exn,
        lk_create_dispatch (checked' request w) (rpc_request' request)
        = inl e0 ->
        fst (create_dispatch' request w) = inl (dispatch_reraised e0)).
Proof.
  intros Hdec Hapi. rewrite create_dispatch_cases, Hdec, Hapi.
  destruct (lk_create_dispatch _ _) as [e1|id1]; cbn [fst snd].
  - split; [reflexivity|]. split; [discriminate|]. intros e0 [= <-].
    reflexivity.
  - split; [reflexivity|]. split; [|discriminate]. intros id [= <-].
    reflexivity.
Qed.

(** X7: [POST /dispatch] answers every failure of the service with HTTP 400
    and the error's message, never with 500: the service only raises
    [AgentDispatchError], which the endpoint maps to 400 although the
    exception itself carries status code 500.  The endpoint adds no effect
    of its own. *)
Theorem endpoint_create_dispatch_failure (request : DispatchRequest)
    (w : World) (e : exn) :
  fst (endpoint' request w) = inl e ->
  snd (endpoint' request w) = snd (create_dispatch' request w)
  /\ exists e0 : exn,
       fst (create_dispatch' request w) = inl e0
       /\ e = HTTPException 400 (str_exn e0)
       /\ status_code e0 = 500%Z.
Proof.
  unfold endpoint_create_dispatch, try_except.
  destruct (create_dispatch' request w) as [[e0|r] w'] eqn:Hrun;
    [|discriminate].
  assert (Hade : is_AgentDispatchError e0 = true).
  { apply (create_dispatch_error_class request w e0). rewrite Hrun.
    reflexivity. }
  rewrite Hade. cbn [fst snd raise]. intros [= <-].
  split; [reflexivity|]. exists e0. split; [reflexivity|].
  split; [reflexivity|]. destruct e0; try discriminate. reflexivity.
Qed.

End DispatchPathProperties.

(** * Further properties of [DispatchCache.should_skip] *)

(** X2: keys do not disturb each other.  After a call for another key, a
    later call (on a clock that has not gone back) gets the answer it would
    have got without it. *)
Theorem should_skip_key_isolation (now later : Q)
    (room agent room' agent' : string) (c : DispatchCache) :
  (room', agent') <> (room, agent) ->
  (now <= later)%Q ->
  fst (should_skip later room agent (snd (should_skip now room' agent' c)))
  = fst (should_skip later room agent c).
Proof.
  intros Hne Hle.
  rewrite !should_skip_answer, should_skip_ttl, should_skip_lookup.
  destruct (decide ((room', agent') = (room, agent))) as [Heq|_];
    [contradiction|].
  destruct (evict (ttl_seconds c) now (_cache c) !! (room, agent))
    as [t|] eqn:E.
  - apply lookup_evict_Some in E as [E _]. rewrite E. reflexivity.
  - destruct (_cache c !! (room, agent)) as [t|] eqn:E'; [|reflexivity].
    pose proof (proj1 (lookup_evict_None _ _ _ _) E t E') as Hx.
    apply is_expired_true in Hx. symmetry. apply Qltb_false. lra.
Qed.

Lemma should_skip_key_isolation_witness :
  fst (should_skip 2 "lobby" "py-agent"
         (snd (should_skip 1 "kitchen" "py-agent" lobby_cache)))
  = fst (should_skip 2 "lobby" "py-agent" lobby_cache).
Proof.
  apply (should_skip_key_isolation 1 2 "lobby" "py-agent" "kitchen" "py-agent"
           lobby_cache).
  - discriminate.
  - vm_compute. discriminate.
Defined.

(** X3: what a call leaves behind.  With a window that is not negative,
    after a call at [now] the queried key is in the cache, no entry is
    older than [ttl_seconds], and the cache has grown by one entry at
    most. *)
Theorem should_skip_leaves_fresh_cache (now : Q) (room agent : string)
    (c : DispatchCache) :
  (0 <= ttl_seconds c)%Z ->
  let c' := snd (should_skip now room agent c) in
  is_Some (_cache c' !! (room, agent))
  /\ (forall k v,
        _cache c' !! k = Some v -> (now - v <= inject_Z (ttl_seconds c))%Q)
  /\ (size (_cache c') <= S (size (_cache c)))%nat.
Proof.
  intros Httl c'. subst c'.
  assert (Hq : (0 <= inject_Z (ttl_seconds c))%Q).
  { change 0%Q with (inject_Z 0). rewrite <- Zle_Qle. exact Httl. }
  split; [|split].
  - rewrite should_skip_lookup.
    destruct (decide _) as [_|Hne]; [|congruence].
    destruct (fst (should_skip now room agent c)) eqn:Hf; [|eauto].
    rewrite should_skip_answer in Hf.
    destruct (_cache c !! (room, agent)) as [t|] eqn:E; [|discriminate].
    exists t. apply lookup_evict_Some. split; [exact E|].
    apply fresh_not_expired, Qltb_true, Hf.
  - intros k v. rewrite should_skip_lookup.
    assert (Hev : evict (ttl_seconds c) now (_cache c) !! k = Some v ->
                  (now - v <= inject_Z (ttl_seconds c))%Q).
    { intros E. apply lookup_evict_Some in E as [_ E].
      apply is_expired_false, E. }
    destruct (decide _) as [_|_]; [|exact Hev].
    destruct (fst (should_skip now room agent c)); [exact Hev|].
    intros [= <-]. lra.
  - pose proof (map_subseteq_size _ _
                  (evict_subseteq (ttl_seconds c) now (_cache c))) as Hsz.
    unfold should_skip.
    destruct (evict (ttl_seconds c) now (_cache c) !! (room, agent))
      as [t|] eqn:E; [destruct (Qltb _ _)|]; cbn [snd _cache].
    + lia.
    + rewrite map_size_insert, E. unfold id. lia.
    + rewrite map_size_insert, E. lia.
Qed.

Lemma should_skip_leaves_fresh_cache_witness :
  is_Some (_cache (snd (should_skip 5 "kitchen" "py-agent" lobby_cache))
             !! ("kitchen", "py-agent"))
  /\ size (_cache (snd (should_skip 5 "kitchen" "py-agent" lobby_cache)))
     = 1%nat.
Proof.
  assert (Httl : (0 <= ttl_seconds lobby_cache)%Z) by (vm_compute; discriminate).
  destruct (should_skip_leaves_fresh_cache 5 "kitchen" "py-agent" lobby_cache
              Httl) as (Hin & _ & _).
  split; [exact Hin | vm_compute; reflexivity].
Defined.

(** ** The dispatch path on the concrete deployment *)

Lemma lobby_dispatch_fails :
  fst (create_dispatch clock_seconds api_ok rpc_down default_settings
         lobby_dispatch fresh_world)
  = inl (AgentDispatchError
           "Failed to create agent dispatch: connection refused").
Proof. vm_compute. reflexivity. Qed.

Lemma create_dispatch_failure_witness :
  is_AgentDispatchError
    (AgentDispatchError "Failed to create agent dispatch: connection refused")
  = true
  /\ fst (cache_decision clock_seconds default_settings lobby_dispatch
            fresh_world) = false.
Proof.
  destruct (create_dispatch_failure clock_seconds api_ok rpc_down
              default_settings lobby_dispatch fresh_world _
              lobby_dispatch_fails) as (Hade & Hdec & _).
  split; [exact Hade | exact Hdec].
Defined.

Lemma failed_dispatch_blocks_retry_witness :
  let run := create_dispatch clock_seconds api_ok rpc_down default_settings in
  let w1 := snd (run lobby_dispatch fresh_world) in
  fst (run lobby_dispatch w1)
  = inr {| dispatch_id := "skipped"; dp_room := "lobby";
           dp_agent_name := "py-agent";
           note := Some "duplicate-suppressed" |}
  /\ rpc_calls (snd (run lobby_dispatch w1)) = rpc_calls w1.
Proof.
  intros run w1.
  assert (Hlt : (clock_seconds (ticks w1) - clock_seconds (ticks fresh_world)
                 < inject_Z (ttl_seconds (dispatch_cache fresh_world)))%Q)
    by (vm_compute; reflexivity).
  destruct (failed_dispatch_blocks_retry clock_seconds api_ok rpc_down
              default_settings lobby_dispatch fresh_world w1 _
              lobby_dispatch_fails eq_refl Hlt) as (_ & Hskip & Hlog).
  split; [exact Hskip | exact Hlog].
Defined.

Lemma create_dispatch_single_attempt_witness :
  rpc_calls (snd (create_dispatch clock_seconds api_ok rpc_ok default_settings
                    lobby_dispatch fresh_world))
  = [ {| cad_agent_name := "py-agent"; cad_room := "lobby";
         cad_metadata := "{}" |} ].
Proof.
  assert (Hdec : fst (cache_decision clock_seconds default_settings
                        lobby_dispatch fresh_world) = false)
    by (vm_compute; reflexivity).
  assert (Hapi : api_ok (after_cache_check clock_seconds default_settings
                           lobby_dispatch fresh_world) = inr tt)
    by reflexivity.
  destruct (create_dispatch_single_attempt clock_seconds api_ok rpc_ok
              default_settings lobby_dispatch fresh_world Hdec Hapi)
    as (Hlog & _ & _).
  exact Hlog.
Defined.

Lemma lobby_dispatch_endpoint_fails :
  fst (endpoint_create_dispatch clock_seconds api_ok rpc_down default_settings
         lobby_dispatch fresh_world)
  = inl (HTTPException 400
           "Failed to create agent dispatch: connection refused").
Proof. vm_compute. reflexivity. Qed.

Lemma endpoint_create_dispatch_failure_witness :
  exists e0 : exn,
    fst (create_dispatch clock_seconds api_ok rpc_down default_settings
           lobby_dispatch fresh_world) = inl e0
    /\ status_code e0 = 500%Z.
Proof.
  destruct (endpoint_create_dispatch_failure clock_seconds api_ok rpc_down
              default_settings lobby_dispatch fresh_world _
              lobby_dispatch_endpoint_fails) as (_ & e0 & Hrun & _ & Hcode).
  exists e0. split; [exact Hrun | exact Hcode].
Defined.

(** * Further properties of the token path *)

Section TokenPathProperties.

Variable utcnow : nat -> Z.
Variable isoformat : Z -> string.
Variable AccessToken_new : string -> string -> exn + unit.
Variable to_jwt : World -> AccessToken -> exn + string.
Variable settings : Settings.
Variable token_urlsafe : World -> string.

Local Abbreviation generate_token' :=
  (generate_token utcnow isoformat AccessToken_new to_jwt settings).
Local Abbreviation builder' :=
  (fun request w =>
     request_builder settings request
       (request_room_config utcnow isoformat settings request w)).
Local Abbreviation create_token' :=
  (create_token utcnow isoformat AccessToken_new to_jwt settings
     token_urlsafe).
Local Abbreviation get_token' :=
  (get_token utcnow isoformat AccessToken_new to_jwt settings token_urlsafe).

(** X8: every failure of [generate_token] is a [TokenGenerationError]
    (status code 400), and it has one of three causes: the TTL check; an
    exception of the signing library ([AccessToken(...)] or [to_jwt]),
    passed on if it is a [TokenGenerationError] and wrapped with the text
    ["Failed to generate token: "] otherwise; or a request without identity,
    for which no [TokenResponse] can be built once the token is signed. *)
Theorem generate_token_failure (request : TokenRequest) (w : World)
    (e : exn) :
  fst (generate_token' request w) = inl e ->
  is_TokenGenerationError e = true
  /\ status_code e = 400%Z
  /\ (e = ttl_exceeds_maximum settings
      /\ (max_token_ttl_minutes settings < tr_ttl_minutes request)%Z
      \/ (exists e0 : exn,
            e = reraised e0
            /\ (AccessToken_new (livekit_api_key settings)
                  (livekit_api_secret settings) = inl e0
                \/ to_jwt (before_signing request w) (builder' request w)
                   = inl e0))
      \/ (tr_identity request = None
          /\ exists jwt : string,
               to_jwt (before_signing request w) (builder' request w)
               = inr jwt)).
Proof.
  rewrite generate_token_unfold.
  assert (Hcls : forall e0,
            is_TokenGenerationError (reraised e0) = true
            /\ status_code (reraised e0) = 400%Z).
  { intros e0. unfold reraised. destruct e0; split; reflexivity. }
  destruct (_ >? _)%Z eqn:G.
  - intros [= <-]. split; [reflexivity|]. split; [reflexivity|].
    left. split; [reflexivity|]. apply Z.gtb_lt, G.
  - destruct (AccessToken_new _ _) as [e1|[]] eqn:Hnew.
    + intros [= <-]. destruct (Hcls e1) as [H1 H2].
      split; [exact H1|]. split; [exact H2|].
      right. left. exists e1. split; [reflexivity | left; reflexivity].
    + cbv zeta. destruct (to_jwt _ _) as [e2|jwt] eqn:Hjwt.
      * intros [= <-]. destruct (Hcls e2) as [H1 H2].
        split; [exact H1|]. split; [exact H2|].
        right. left. exists e2. split; [reflexivity | right; reflexivity].
      * destruct (tr_identity request) eqn:Hid; [discriminate|].
        intros [= <-]. split; [reflexivity|]. split; [reflexivity|].
        right. right. split; [reflexivity|]. exists jwt. reflexivity.
Qed.

(** X9: a call to [generate_token] asks the signing library for one token at
    most, the token of the request's builder, and touches neither the
    dispatch cache nor the log of dispatch RPC calls. *)
Theorem generate_token_signs_at_most_once (request : TokenRequest)
    (w : World) :
  (jwt_calls (snd (generate_token' request w)) = jwt_calls w
   \/ jwt_calls (snd (generate_token' request w))
      = builder' request w :: jwt_calls w)
  /\ dispatch_cache (snd (generate_token' request w)) = dispatch_cache w
  /\ rpc_calls (snd (generate_token' request w)) = rpc_calls w.
Proof.
  rewrite generate_token_unfold.
  destruct (_ >? _)%Z; [repeat split; left; reflexivity|].
  destruct (AccessToken_new _ _) as [e1|[]];
    [repeat split; left; reflexivity|].
  cbv zeta. unfold before_signing.
  destruct (to_jwt _ _) as [e2|jwt]; [|destruct (tr_identity request)];
    destruct (tr_dispatch_agent request); cbn;
    (split; [right; reflexivity | split; reflexivity]).
Qed.

(** X10: the response and the credential agree.  In a successful call the
    identity and room of the response are those given to the signing
    library together with the configured key and secret, and the display
    name given to it is the request's name when that is not empty, and the
    identity otherwise. *)
Theorem generate_token_identity_consistent (request : TokenRequest)
    (w : World) (resp : TokenResponse) :
  fst (generate_token' request w) = inr resp ->
  exists t : AccessToken,
    jwt_calls (snd (generate_token' request w)) = t :: jwt_calls w
    /\ at_identity t = Some (identity resp)
    /\ vg_room (at_grants t) = room resp
    /\ at_name t
       = (if Py.truthy (tr_name request) then tr_name request
          else Some (identity resp))
    /\ api_key t = livekit_api_key settings
    /\ api_secret t = livekit_api_secret settings
    /\ ws_url resp = livekit_ws_url settings.
Proof.
  rewrite generate_token_unfold.
  destruct (_ >? _)%Z; [discriminate|].
  destruct (AccessToken_new _ _) as [e1|[]]; [discriminate|].
  cbv zeta. destruct (to_jwt _ _) as [e2|jwt]; [discriminate|].
  destruct (tr_identity request) as [i|] eqn:Hid; [|discriminate].
  cbn [fst snd]. intros [= <-]. eexists. split.
  { unfold before_signing. destruct (tr_dispatch_agent request); reflexivity. }
  cbn. rewrite Hid. unfold Py.or_else. repeat split.
Qed.

(** X11: [validate_token_request] changes nothing, fails only with
    [TokenGenerationError], and accepts a request exactly when the room name
    is within [max_room_name_length], a non-empty identity is within
    [max_identity_length], and the TTL lies between 1 and
    [max_token_ttl_minutes]. *)
Theorem validate_token_request_accepts_iff (request : TokenRequest)
    (w : World) :
  snd (validate_token_request settings request w) = w
  /\ (fst (validate_token_request settings request w) = inr tt
      <-> (len (tr_room request) <= max_room_name_length settings)%Z
          /\ (forall i,
                tr_identity request = Some i -> i <> "" ->
                (len i <= max_identity_length settings)%Z)
          /\ (1 <= tr_ttl_minutes request <= max_token_ttl_minutes settings)%Z)
  /\ (forall e,
        fst (validate_token_request settings request w) = inl e ->
        is_TokenGenerationError e = true).
Proof.
  unfold validate_token_request, raise, ret.
  destruct (len (tr_room request) >? max_room_name_length settings)%Z eqn:Hr.
  { apply Z.gtb_lt in Hr. split; [reflexivity|]. split.
    - split; [discriminate|]. intros (H & _). lia.
    - intros e [= <-]. reflexivity. }
  assert (Hr' : (len (tr_room request) <= max_room_name_length settings)%Z).
  { destruct (Z.gtb_spec (len (tr_room request))
                (max_room_name_length settings)); [discriminate | lia]. }
  destruct (tr_identity request) as [i|] eqn:Hid; cbn [Py.truthy andb].
  - destruct i as [|a i']; cbn [Py.str_truthy andb].
    + destruct (tr_ttl_minutes request <? 1)%Z eqn:H1;
        [|destruct (tr_ttl_minutes request >? max_token_ttl_minutes settings)%Z
            eqn:H2];
        try apply Z.ltb_lt in H1; try apply Z.ltb_ge in H1;
        try apply Z.gtb_lt in H2;
        (split; [reflexivity|]); split;
        try (intros e [= <-]; reflexivity); try discriminate.
      * split; [discriminate|]. intros (_ & _ & H). lia.
      * split; [discriminate|]. intros (_ & _ & H). lia.
      * split; [intros _|reflexivity]. split; [exact Hr'|].
        split; [intros i [= <-] Hne; congruence|].
        destruct (Z.gtb_spec (tr_ttl_minutes request)
                    (max_token_ttl_minutes settings)); [discriminate | lia].
    + destruct (len (String a i') >? max_identity_length settings)%Z eqn:Hi.
      { apply Z.gtb_lt in Hi. split; [reflexivity|]. split.
        - split; [discriminate|]. intros (_ & H & _).
          specialize (H _ eq_refl). assert (String a i' <> "") by discriminate.
          specialize (H H0). lia.
        - intros e [= <-]. reflexivity. }
      assert (Hi' : (len (String a i') <= max_identity_length settings)%Z).
      { destruct (Z.gtb_spec (len (String a i'))
                    (max_identity_length settings)); [discriminate | lia]. }
      destruct (tr_ttl_minutes request <? 1)%Z eqn:H1;
        [|destruct (tr_ttl_minutes request >? max_token_ttl_minutes settings)%Z
            eqn:H2];
        try apply Z.ltb_lt in H1; try apply Z.ltb_ge in H1;
        try apply Z.gtb_lt in H2;
        (split; [reflexivity|]); split;
        try (intros e [= <-]; reflexivity); try discriminate.
      * split; [discriminate|]. intros (_ & _ & H). lia.
      * split; [discriminate|]. intros (_ & _ & H). lia.
      * split; [intros _|reflexivity]. split; [exact Hr'|].
        split; [intros i [= <-] _; exact Hi'|].
        destruct (Z.gtb_spec (tr_ttl_minutes request)
                    (max_token_ttl_minutes settings)); [discriminate | lia].
  - destruct (tr_ttl_minutes request <? 1)%Z eqn:H1;
      [|destruct (tr_ttl_minutes request >? max_token_ttl_minutes settings)%Z
          eqn:H2];
      try apply Z.ltb_lt in H1; try apply Z.ltb_ge in H1;
      try apply Z.gtb_lt in H2;
      (split; [reflexivity|]); split;
      try (intros e [= <-]; reflexivity); try discriminate.
    + split; [discriminate|]. intros (_ & _ & H). lia.
    + split; [discriminate|]. intros (_ & _ & H). lia.
    + split; [intros _|reflexivity]. split; [exact Hr'|].
      split; [intros i; discriminate|].
      destruct (Z.gtb_spec (tr_ttl_minutes request)
                  (max_token_ttl_minutes settings)); [discriminate | lia].
Qed.

(** X12: with configured limits no smaller than the bounds of the request
    model (100 characters, 100 characters, 1440 minutes: the defaults), a
    request the model accepts passes [validate_token_request], and its TTL
    passes the check of [generate_token]: these checks can only fire in a
    deployment configured below the model's bounds. *)
Theorem valid_request_passes_validation (request : TokenRequest) (w : World) :
  TokenRequest_valid request = true ->
  (100 <= max_room_name_length settings)%Z ->
  (100 <= max_identity_length settings)%Z ->
  (1440 <= max_token_ttl_minutes settings)%Z ->
  fst (validate_token_request settings request w) = inr tt
  /\ (tr_ttl_minutes request >? max_token_ttl_minutes settings)%Z = false.
Proof.
  intros Hv Hroom Hid Httl. unfold TokenRequest_valid in Hv.
  repeat (apply andb_true_iff in Hv; destruct Hv as [Hv ?]).
  repeat match goal with
         | H : (_ <=? _)%Z = true |- _ => apply Z.leb_le in H
         end.
  assert (Hgt : (tr_ttl_minutes request >? max_token_ttl_minutes settings)%Z
                = false).
  { destruct (Z.gtb_spec (tr_ttl_minutes request)
                (max_token_ttl_minutes settings)); [lia | reflexivity]. }
  split; [|exact Hgt].
  assert (E1 : (len (tr_room request) >? max_room_name_length settings)%Z
               = false).
  { destruct (Z.gtb_spec (len (tr_room request))
                (max_room_name_length settings)); [lia | reflexivity]. }
  assert (E2 : Py.truthy (tr_identity request)
               && match tr_identity request with
                  | Some i => (len i >? max_identity_length settings)%Z
                  | None => false
                  end = false).
  { destruct (tr_identity request) as [i|]; [|reflexivity].
    apply andb_false_intro2. unfold opt_max_length in *.
    match goal with
    | H : (len i <=? 100)%Z = true |- _ => apply Z.leb_le in H
    end.
    destruct (Z.gtb_spec (len i) (max_identity_length settings));
      [lia | reflexivity]. }
  assert (E3 : (tr_ttl_minutes request <? 1)%Z = false)
    by (apply Z.ltb_ge; lia).
  unfold validate_token_request. rewrite E1, E2, E3, Hgt. reflexivity.
Qed.

Lemma create_token_unfold (request : TokenRequest) (w : World) :
  create_token' request w
  = to_http (generate_token' (resolved token_urlsafe request w)) w.
Proof.
  cbv [create_token to_http try_except bind resolve_identity ret resolved].
  destruct (Py.truthy (tr_identity request)); reflexivity.
Qed.

Lemma get_token_unfold (room : string) (identity name : option string)
    (ttl_minutes : Z) (mic_only dispatch_agent : bool) (w : World) :
  let r := resolved token_urlsafe
             {| tr_room := room; tr_identity := identity; tr_name := name;
                tr_ttl_minutes := ttl_minutes; tr_mic_only := mic_only;
                tr_dispatch_agent := dispatch_agent |} w in
  get_token' room identity name ttl_minutes mic_only dispatch_agent w
  = if TokenRequest_valid r then to_http (generate_token' r) w
    else (inl (HTTPException 500 "Failed to generate token"), w).
Proof.
  cbv [get_token to_http try_except bind resolve_identity ret resolved
         TokenRequest_new raise tr_identity tr_room tr_name tr_ttl_minutes
         tr_mic_only tr_dispatch_agent].
  destruct (Py.truthy identity);
    (destruct (TokenRequest_valid _); reflexivity).
Qed.

Lemma to_http_generate_token (request : TokenRequest) (w : World) :
  to_http (generate_token' request) w
  = match fst (generate_token' request w) with
    | inl e0 =>
        (inl (HTTPException 400 (str_exn e0)), snd (generate_token' request w))
    | inr resp => (inr resp, snd (generate_token' request w))
    end.
Proof.
  unfold to_http, try_except.
  destruct (generate_token' request w) as [[e0|resp] w'] eqn:Hrun;
    [|reflexivity].
  cbn [fst snd].
  rewrite (generate_token_raises_TokenGenerationError utcnow isoformat
             AccessToken_new to_jwt settings request w e0)
    by (rewrite Hrun; reflexivity).
  reflexivity.
Qed.

(** X13: [POST /token] answers every failure with HTTP 400 carrying the
    message of the service's error, a failure of the signing library
    included, and never with 500. *)
Theorem create_token_failure (request : TokenRequest) (w : World) (e : exn) :
  fst (create_token' request w) = inl e ->
  exists e0 : exn,
    fst (generate_token' (resolved token_urlsafe request w) w) = inl e0
    /\ e = HTTPException 400 (str_exn e0).
Proof.
  rewrite create_token_unfold, to_http_generate_token.
  destruct (fst (generate_token' _ w)) as [e0|resp]; [|discriminate].
  cbn [fst]. intros [= <-]. exists e0. split; reflexivity.
Qed.

(** X14: [GET /token] fails in two ways only.  When the request built from
    the query does not pass the validators of [TokenRequest], the answer is
    HTTP 500 ["Failed to generate token"] and nothing has been done; when
    the service fails, the answer is HTTP 400 with the service's
    message. *)
Theorem get_token_failure (room : string) (identity name : option string)
    (ttl_minutes : Z) (mic_only dispatch_agent : bool) (w : World) (e : exn) :
  let r := resolved token_urlsafe
             {| tr_room := room; tr_identity := identity; tr_name := name;
                tr_ttl_minutes := ttl_minutes; tr_mic_only := mic_only;
                tr_dispatch_agent := dispatch_agent |} w in
  let run := get_token' room identity name ttl_minutes mic_only
               dispatch_agent w in
  fst run = inl e ->
  (TokenRequest_valid r = false
   /\ e = HTTPException 500 "Failed to generate token"
   /\ snd run = w)
  \/ (TokenRequest_valid r = true
      /\ exists e0 : exn,
           fst (generate_token' r w) = inl e0
           /\ e = HTTPException 400 (str_exn e0)).
Proof.
  intros r run. subst run. rewrite get_token_unfold. cbv zeta. fold r.
  destruct (TokenRequest_valid r).
  - rewrite to_http_generate_token.
    destruct (fst (generate_token' r w)) as [e0|resp]; [|discriminate].
    cbn [fst]. intros [= <-]. right. split; [reflexivity|].
    exists e0. split; reflexivity.
  - cbn [fst snd]. intros [= <-]. left. repeat split.
Qed.

(** X15: the identity of a token issued by [POST /token].  A non-empty
    identity of the request is used as it is; an absent or empty one is
    replaced by ["guest-"] followed by the random token.  Either way the
    signing library is given the identity the response reports. *)
Theorem create_token_identity (request : TokenRequest) (w : World)
    (resp : TokenResponse) :
  fst (create_token' request w) = inr resp ->
  (Py.truthy (tr_identity request) = true ->
   tr_identity request = Some (identity resp))
  /\ (Py.truthy (tr_identity request) = false ->
      identity resp = "guest-" ++ token_urlsafe w)
  /\ exists t : AccessToken,
       jwt_calls (snd (create_token' request w)) = t :: jwt_calls w
       /\ at_identity t = Some (identity resp).
Proof.
  rewrite create_token_unfold, to_http_generate_token.
  destruct (fst (generate_token' _ w)) as [e0|resp0] eqn:Hrun; [discriminate|].
  cbn [fst snd]. intros [= <-].
  apply generate_token_success in Hrun. cbv zeta in Hrun.
  destruct Hrun as (_ & Hw & Hid & _).
  unfold resolved in Hid at 1. cbn [tr_identity] in Hid.
  split; [|split].
  - intros Ht. rewrite Ht in Hid. exact Hid.
  - intros Ht. rewrite Ht in Hid. injection Hid as <-. reflexivity.
  - rewrite Hw. eexists. split.
    + unfold before_signing.
      destruct (tr_dispatch_agent (resolved token_urlsafe request w));
        reflexivity.
    + cbn [request_builder at_identity]. unfold resolved at 1.
      cbn [tr_identity]. exact Hid.
Qed.

End TokenPathProperties.

(** * Properties of the request validators *)

Lemma all_alnum_all_chars (s : string) :
  Py.all_alnum s = PyStr.all_chars Py.is_alnum_char s.
Proof. induction s as [|a s IH]; cbn; [|rewrite IH]; reflexivity. Qed.

Lemma all_chars_remove_char (p : ascii -> bool) (c : ascii) (s : string) :
  PyStr.all_chars p (Py.remove_char c s)
  = PyStr.all_chars (fun a => Ascii.eqb a c || p a) s.
Proof.
  induction s as [|a s IH]; cbn; [reflexivity|].
  destruct (Ascii.eqb a c); cbn; rewrite IH; reflexivity.
Qed.

(** What is left of a name once hyphens and underscores are removed is
    alphanumeric exactly when the name is made of name characters. *)
Lemma all_alnum_stripped_name (v : string) :
  Py.all_alnum (Py.remove_char "_" (Py.remove_char "-" v))
  = PyStr.all_chars name_char v.
Proof.
  rewrite all_alnum_all_chars, !all_chars_remove_char.
  induction v as [|a v IH]; cbn; [reflexivity|]. rewrite IH. f_equal.
  unfold name_char.
  destruct (Ascii.eqb a "-"), (Ascii.eqb a "_"), (Py.is_alnum_char a);
    reflexivity.
Qed.

(** In a name made of name characters, something is left after the removal
    exactly when the name has a letter or a digit. *)
Lemma truthy_stripped_name (v : string) :
  PyStr.all_chars name_char v = true ->
  Py.str_truthy (Py.remove_char "_" (Py.remove_char "-" v))
  = PyStr.any_char Py.is_alnum_char v.
Proof.
  induction v as [|a v IH]; cbn; [reflexivity|].
  intros Hall. apply andb_true_iff in Hall as [Ha Hall].
  destruct (Ascii.eqb_spec a "-") as [->|Hh]; [cbn; apply IH, Hall|].
  cbn. destruct (Ascii.eqb_spec a "_") as [->|Hu]; [cbn; apply IH, Hall|].
  cbn. unfold name_char in Ha.
  apply Ascii.eqb_neq in Hh, Hu. rewrite Hh, Hu, !orb_false_r in Ha.
  rewrite Ha. reflexivity.
Qed.

(** X16: the character rule of room names and identities, on ASCII text.
    [v.replace('-', '').replace('_', '').isalnum()] holds exactly when [v]
    is made of letters, digits, hyphens and underscores and has at least one
    letter or digit: a name of hyphens and underscores only, like the empty
    name, is refused. *)
Theorem charset_ok_iff (v : string) :
  PyStr.isascii v = true ->
  charset_ok v
  = PyStr.all_chars name_char v && PyStr.any_char Py.is_alnum_char v.
Proof.
  intros _. unfold charset_ok, Py.isalnum.
  rewrite all_alnum_stripped_name.
  destruct (PyStr.all_chars name_char v) eqn:Hall.
  - rewrite (truthy_stripped_name v Hall), andb_true_r. reflexivity.
  - rewrite andb_false_r. reflexivity.
Qed.

Lemma charset_ok_iff_witness :
  charset_ok "room_42-b" = true /\ charset_ok "-_-" = false.
Proof.
  split.
  - rewrite (charset_ok_iff "room_42-b" eq_refl). reflexivity.
  - rewrite (charset_ok_iff "-_-" eq_refl). reflexivity.
Defined.

Lemma append_cons (a : ascii) (s t : string) :
  String a s ++ t = String a (s ++ t).
Proof. reflexivity. Qed.

Lemma all_chars_app (p : ascii -> bool) (s t : string) :
  PyStr.all_chars p (s ++ t) = PyStr.all_chars p s && PyStr.all_chars p t.
Proof.
  induction s as [|a s IH]; [reflexivity|].
  rewrite append_cons. cbn [PyStr.all_chars].
  rewrite IH, andb_assoc. reflexivity.
Qed.

Lemma length_app_string (s t : string) :
  String.length (s ++ t) = (String.length s + String.length t)%nat.
Proof.
  induction s as [|a s IH]; [reflexivity|].
  rewrite append_cons. cbn [String.length Nat.add]. rewrite IH. reflexivity.
Qed.

(** X17: resolving the identity keeps a request valid.  When the random
    token is made of URL-safe characters (letters, digits, hyphen,
    underscore) and has at most 94 of them, the request with the generated
    ["guest-..."] identity passes the validators of [TokenRequest] exactly
    when the original request does: the second validation in [GET /token]
    cannot fail because of the generated identity. *)
Theorem resolved_preserves_validity (token_urlsafe : World -> string)
    (request : TokenRequest) (w : World) :
  PyStr.all_chars name_char (token_urlsafe w) = true ->
  (String.length (token_urlsafe w) <= 94)%nat ->
  TokenRequest_valid (resolved token_urlsafe request w)
  = TokenRequest_valid request.
Proof.
  intros Hsafe Hlen. unfold TokenRequest_valid, resolved.
  cbn [tr_room tr_identity tr_name tr_ttl_minutes].
  destruct (Py.truthy (tr_identity request)) eqn:Ht; [reflexivity|].
  assert (Hold : opt_max_length 100 (tr_identity request)
                 && validate_identity (tr_identity request) = true).
  { unfold validate_identity. rewrite Ht.
    destruct (tr_identity request) as [[|a i]|]; [reflexivity | | reflexivity].
    discriminate Ht. }
  assert (Hnew : opt_max_length 100 (Some ("guest-" ++ token_urlsafe w))
                 && validate_identity (Some ("guest-" ++ token_urlsafe w))
                 = true).
  { apply andb_true_iff. split.
    - unfold opt_max_length, len. apply Z.leb_le.
      rewrite length_app_string. cbn [String.length]. lia.
    - unfold validate_identity. cbn [Py.truthy String.append Py.str_truthy].
      unfold charset_ok, Py.isalnum.
      assert (Hall : PyStr.all_chars name_char ("guest-" ++ token_urlsafe w)
                     = true)
        by (rewrite all_chars_app, Hsafe; reflexivity).
      rewrite all_alnum_stripped_name, truthy_stripped_name, Hall
        by exact Hall.
      reflexivity. }
  apply andb_true_iff in Hold as [Ho1 Ho2].
  apply andb_true_iff in Hnew as [Hn1 Hn2].
  rewrite Ho1, Ho2, Hn1, Hn2. reflexivity.
Qed.

Lemma resolved_preserves_validity_witness :
  TokenRequest_valid
    (resolved urlsafe_stub
       {| tr_room := "lobby"; tr_identity := None; tr_name := None;
          tr_ttl_minutes := 60; tr_mic_only := true;
          tr_dispatch_agent := false |} fresh_world) = true.
Proof.
  rewrite (resolved_preserves_validity urlsafe_stub _ fresh_world).
  - reflexivity.
  - reflexivity.
  - cbn. lia.
Defined.

(** X18: what the [metadata] validator returns is never empty.  An absent or
    empty value becomes ["{}"] without being parsed; any other value is
    returned unchanged, and only if [json.loads] accepts it; so the default
    [metadata or "{}"] of [_create_livekit_dispatch] leaves a validated
    value as it is. *)
Theorem validate_metadata_json_result (json_loads_ok : string -> bool)
    (v : option string) (m : string) :
  validate_metadata_json json_loads_ok v = inr m ->
  m <> ""
  /\ (Py.truthy v = false /\ m = "{}"
      \/ v = Some m /\ json_loads_ok m = true)
  /\ Py.or_default (Some m) "{}" = m.
Proof.
  unfold validate_metadata_json.
  destruct v as [[|a text]|]; cbn [Py.truthy Py.str_truthy Py.or_default].
  - intros [= <-]. split; [discriminate|]. split; [left; split|]; reflexivity.
  - destruct (json_loads_ok (String a text)) eqn:Hok; [|discriminate].
    intros [= <-]. split; [discriminate|].
    split; [right; split; [reflexivity | exact Hok] | reflexivity].
  - intros [= <-]. split; [discriminate|]. split; [left; split|]; reflexivity.
Qed.

Lemma validate_metadata_json_result_witness :
  Py.or_default (Some "{}") "{}" = "{}".
Proof.
  apply (validate_metadata_json_result (fun _ => false) (Some "") "{}").
  reflexivity.
Defined.

(** * Properties of [Settings.parse_list_from_string] *)

Lemma lstrip_starts (s : string) :
  PyStr.starts_with_space (PyStr.lstrip s) = false.
Proof.
  induction s as [|a s IH]; cbn; [reflexivity|].
  destruct (PyStr.isspace_char a) eqn:Ha; [exact IH | cbn; exact Ha].
Qed.

Lemma rstrip_ends (s : string) :
  PyStr.ends_with_space (PyStr.rstrip s) = false.
Proof.
  induction s as [|a s IH]; cbn; [reflexivity|].
  destruct (PyStr.rstrip s) as [|b kept].
  - destruct (PyStr.isspace_char a) eqn:Ha; cbn; [reflexivity | exact Ha].
  - exact IH.
Qed.

Lemma lstrip_ends (s : string) :
  PyStr.ends_with_space s = false ->
  PyStr.ends_with_space (PyStr.lstrip s) = false.
Proof.
  induction s as [|a s IH]; cbn [PyStr.lstrip]; [intros _; reflexivity|].
  intros Hend. destruct (PyStr.isspace_char a) eqn:Ha; [|exact Hend].
  apply IH. destruct s as [|b s']; [cbn in Hend; congruence | exact Hend].
Qed.

Lemma contains_lstrip (c : ascii) (s : string) :
  PyStr.contains c s = false -> PyStr.contains c (PyStr.lstrip s) = false.
Proof.
  induction s as [|a s IH]; cbn [PyStr.lstrip]; [intros _; reflexivity|].
  intros H. destruct (PyStr.isspace_char a); [|exact H].
  apply IH. cbn in H. apply orb_false_iff in H as [_ H]. exact H.
Qed.

Lemma contains_rstrip (c : ascii) (s : string) :
  PyStr.contains c s = false -> PyStr.contains c (PyStr.rstrip s) = false.
Proof.
  induction s as [|a s IH]; cbn [PyStr.rstrip]; [intros _; reflexivity|].
  intros H. cbn in H. apply orb_false_iff in H as [Ha H].
  specialize (IH H). destruct (PyStr.rstrip s) as [|b kept].
  - destruct (PyStr.isspace_char a); cbn; [reflexivity|].
    rewrite Ha. reflexivity.
  - cbn [PyStr.contains]. rewrite Ha. exact IH.
Qed.

(** No piece of a split holds the separator. *)
Lemma split_pieces (sep : ascii) (s : string) :
  PyStr.split sep s <> []
  /\ Forall (fun piece => PyStr.contains sep piece = false)
       (PyStr.split sep s).
Proof.
  induction s as [|a s [IHne IH]]; cbn [PyStr.split].
  - split; [discriminate|]. constructor; [reflexivity | constructor].
  - destruct (Ascii.eqb a sep) eqn:Ha.
    + split; [discriminate|]. constructor; [reflexivity | exact IH].
    + destruct (PyStr.split sep s) as [|head tail]; [contradiction|].
      split; [discriminate|]. inversion IH as [|? ? Hh Ht]; subst.
      constructor; [|exact Ht]. cbn. rewrite Ha. exact Hh.
Qed.

(** X19: the items [parse_list_from_string] makes of a string are clean:
    none is empty, none begins or ends with white space, none holds a
    comma. *)
Theorem parsed_items_clean (s x : string) :
  In x (get_list (parse_list_from_string (AsStr s))) ->
  x <> ""
  /\ PyStr.starts_with_space x = false
  /\ PyStr.ends_with_space x = false
  /\ PyStr.contains "," x = false.
Proof.
  cbn [parse_list_from_string].
  destruct (String.eqb (PyStr.strip s) "*"); cbn [get_list].
  - intros [<-|[]]. repeat split. discriminate.
  - unfold comma_separated. intros Hin.
    apply in_map_iff in Hin as (piece & <- & Hin).
    apply filter_In in Hin as [Hin Hne].
    destruct (split_pieces "," s) as [_ Hall].
    rewrite Forall_forall in Hall.
    assert (Hc : PyStr.contains "," piece = false).
    { apply Hall. apply list_elem_of_In. exact Hin. }
    split; [intros E; rewrite E in Hne; discriminate|].
    unfold PyStr.strip. split; [apply lstrip_starts|].
    split; [apply lstrip_ends, rstrip_ends|].
    apply contains_lstrip, contains_rstrip, Hc.
Qed.

Lemma parsed_items_clean_witness :
  get_list (parse_list_from_string (AsStr " a.example.org , ,b.example.org,"))
  = ["a.example.org"; "b.example.org"]
  /\ PyStr.ends_with_space "a.example.org" = false.
Proof.
  split; [vm_compute; reflexivity|].
  apply (parsed_items_clean " a.example.org , ,b.example.org,"
           "a.example.org").
  vm_compute. left. reflexivity.
Defined.

Lemma eqb_not_space (a c : ascii) :
  PyStr.isspace_char a = true -> PyStr.isspace_char c = false ->
  Ascii.eqb a c = false.
Proof.
  intros Ha Hc. destruct (Ascii.eqb_spec a c) as [->|_]; [congruence|].
  reflexivity.
Qed.

Lemma contains_lstrip_eq (c : ascii) (s : string) :
  PyStr.isspace_char c = false ->
  PyStr.contains c (PyStr.lstrip s) = PyStr.contains c s.
Proof.
  intros Hc. induction s as [|a s IH]; cbn [PyStr.lstrip]; [reflexivity|].
  destruct (PyStr.isspace_char a) eqn:Ha; [|reflexivity].
  cbn [PyStr.contains]. rewrite (eqb_not_space a c Ha Hc). exact IH.
Qed.

Lemma contains_rstrip_eq (c : ascii) (s : string) :
  PyStr.isspace_char c = false ->
  PyStr.contains c (PyStr.rstrip s) = PyStr.contains c s.
Proof.
  intros Hc. induction s as [|a s IH]; cbn [PyStr.rstrip]; [reflexivity|].
  destruct (PyStr.rstrip s) as [|b kept].
  - cbn [PyStr.contains] in *. rewrite <- IH, orb_false_r.
    destruct (PyStr.isspace_char a) eqn:Ha.
    + rewrite (eqb_not_space a c Ha Hc). reflexivity.
    + cbn. rewrite orb_false_r. reflexivity.
  - cbn [PyStr.contains] in *. rewrite IH. reflexivity.
Qed.

Lemma split_without_separator (sep : ascii) (s : string) :
  PyStr.contains sep s = false -> PyStr.split sep s = [s].
Proof.
  induction s as [|a s IH]; cbn; [reflexivity|].
  intros H. apply orb_false_iff in H as [Ha H].
  rewrite Ha, (IH H). reflexivity.
Qed.

(** X20: the special case for ["*"] in [parse_list_from_string] changes
    nothing: for every string the result is the list of its non-blank,
    stripped, comma-separated items, which for a lone star (with or without
    white space around it) is [["*"]] anyway. *)
Theorem star_is_not_special (s : string) :
  parse_list_from_string (AsStr s) = AsList (comma_separated s).
Proof.
  cbn [parse_list_from_string].
  destruct (String.eqb_spec (PyStr.strip s) "*") as [Hstar|_]; [|reflexivity].
  f_equal. unfold comma_separated.
  assert (Hc : PyStr.contains "," s = false).
  { rewrite <- (contains_rstrip_eq "," s eq_refl).
    rewrite <- (contains_lstrip_eq "," (PyStr.rstrip s) eq_refl).
    fold (PyStr.strip s). rewrite Hstar. reflexivity. }
  rewrite (split_without_separator "," s Hc).
  cbn [List.filter]. rewrite Hstar. cbn [Py.str_truthy map].
  rewrite Hstar. reflexivity.
Qed.

(** ** The token path on the concrete deployment *)

Lemma lobby_token_signing_fails :
  fst (generate_token clock_utc iso_stub new_ok jwt_down default_settings
         lobby_request fresh_world)
  = inl (TokenGenerationError "Failed to generate token: signing failed").
Proof. vm_compute. reflexivity. Qed.

Lemma generate_token_failure_witness :
  is_TokenGenerationError
    (TokenGenerationError "Failed to generate token: signing failed") = true
  /\ status_code
       (TokenGenerationError "Failed to generate token: signing failed")
     = 400%Z.
Proof.
  destruct (generate_token_failure clock_utc iso_stub new_ok jwt_down
              default_settings lobby_request fresh_world _
              lobby_token_signing_fails) as (Hcls & Hcode & _).
  split; [exact Hcls | exact Hcode].
Defined.

Lemma generate_token_identity_consistent_witness :
  exists t : AccessToken,
    jwt_calls (snd (generate_token clock_utc iso_stub new_ok jwt_ok
                      default_settings lobby_request fresh_world)) = [t]
    /\ at_identity t = Some "alice"
    /\ at_name t = Some "alice".
Proof.
  destruct (generate_token_identity_consistent clock_utc iso_stub new_ok
              jwt_ok default_settings lobby_request fresh_world
              lobby_response lobby_token_issued)
    as (t & Hlog & Hid & _ & Hname & _).
  exists t. split; [exact Hlog|]. split; [exact Hid | exact Hname].
Defined.

Lemma valid_request_passes_validation_witness :
  fst (validate_token_request default_settings lobby_request fresh_world)
  = inr tt.
Proof.
  apply (valid_request_passes_validation default_settings lobby_request
           fresh_world).
  - vm_compute. reflexivity.
  - vm_compute. discriminate.
  - vm_compute. discriminate.
  - vm_compute. discriminate.
Defined.

Lemma lobby_post_signing_fails :
  fst (create_token clock_utc iso_stub new_ok jwt_down default_settings
         urlsafe_stub lobby_request fresh_world)
  = inl (HTTPException 400 "Failed to generate token: signing failed").
Proof. vm_compute. reflexivity. Qed.

Lemma create_token_failure_witness :
  exists e0 : exn,
    fst (generate_token clock_utc iso_stub new_ok jwt_down default_settings
           (resolved urlsafe_stub lobby_request fresh_world) fresh_world)
    = inl e0
    /\ HTTPException 400 "Failed to generate token: signing failed"
       = HTTPException 400 (str_exn e0).
Proof.
  exact (create_token_failure clock_utc iso_stub new_ok jwt_down
           default_settings urlsafe_stub lobby_request fresh_world _
           lobby_post_signing_fails).
Defined.

(** A room name with a space in it passes the length bounds of the query
    parameter and is refused by the validator of [TokenRequest]. *)
Lemma spaced_room_get_fails :
  fst (get_token clock_utc iso_stub new_ok jwt_ok default_settings
         urlsafe_stub "my room" (Some "alice") None 60 true false fresh_world)
  = inl (HTTPException 500 "Failed to generate token").
Proof. vm_compute. reflexivity. Qed.

Lemma get_token_failure_witness :
  snd (get_token clock_utc iso_stub new_ok jwt_ok default_settings
         urlsafe_stub "my room" (Some "alice") None 60 true false fresh_world)
  = fresh_world.
Proof.
  destruct (get_token_failure clock_utc iso_stub new_ok jwt_ok
              default_settings urlsafe_stub "my room" (Some "alice") None 60
              true false fresh_world _ spaced_room_get_fails)
    as [(_ & _ & Hw) | (Hv & _)].
  - exact Hw.
  - vm_compute in Hv. discriminate Hv.
Defined.

Lemma anonymous_token_issued :
  fst (create_token clock_utc iso_stub new_ok jwt_ok default_settings
         urlsafe_stub anonymous_request fresh_world)
  = inr {| token := "jwt-for-lobby"; ws_url := "wss://voice.example.org";
           room := "lobby"; identity := "guest-c29tZXRva2Vu";
           ttl_minutes := 60; expires_at := 3600000000 |}.
Proof. vm_compute. reflexivity. Qed.

Lemma create_token_identity_witness :
  exists t : AccessToken,
    jwt_calls (snd (create_token clock_utc iso_stub new_ok jwt_ok
                      default_settings urlsafe_stub anonymous_request
                      fresh_world)) = [t]
    /\ at_identity t = Some "guest-c29tZXRva2Vu".
Proof.
  destruct (create_token_identity clock_utc iso_stub new_ok jwt_ok
              default_settings urlsafe_stub anonymous_request fresh_world _
              anonymous_token_issued) as (_ & _ & t & Hlog & Hid).
  exists t. split; [exact Hlog | exact Hid].
Defined.

(** * Repeated dispatch requests *)

Section DispatchSequences.

Variable time_time : nat -> Q.
Variable LiveKitAPI_new : World -> exn + unit.
Variable lk_create_dispatch
  : World -> CreateAgentDispatchRequest -> exn + string.
Variable settings : Settings.

Local Abbreviation create_dispatch' :=
  (create_dispatch time_time LiveKitAPI_new lk_create_dispatch settings).
Local Abbreviation decision' := (cache_decision time_time settings).
Local Abbreviation checked' := (after_cache_check time_time settings).
Local Abbreviation rpc_request' := (rpc_request settings).

(** A call that is not suppressed leaves its key in the cache, stamped with
    the time of the call, whatever happens to the RPC. *)
Lemma accepted_dispatch_recorded (request : DispatchRequest) (w : World) :
  fst (decision' request w) = false ->
  _cache (dispatch_cache (snd (create_dispatch' request w)))
    !! (dr_room request, effective_agent settings request)
  = Some (time_time (ticks w))
  /\ ttl_seconds (dispatch_cache (snd (create_dispatch' request w)))
     = ttl_seconds (dispatch_cache w).
Proof.
  intros Hdec. rewrite create_dispatch_cache.
  fold (effective_agent settings request).
  fold (cache_decision time_time settings request w).
  unfold cache_decision in *. rewrite should_skip_ttl, should_skip_lookup, Hdec.
  destruct (decide _) as [_|Hne]; [split; reflexivity | congruence].
Qed.

(** X21: two requests inside one window make one RPC.  When a request is
    not suppressed and the LiveKit client opens, the same request made
    again less than [ttl_seconds] later is answered ["skipped"], and after
    both calls the RPC log has grown by one request only. *)
Theorem duplicate_dispatch_one_rpc (request : DispatchRequest) (w : World) :
  fst (decision' request w) = false ->
  LiveKitAPI_new (checked' request w) = inr tt ->
  (time_time (S (ticks w)) - time_time (ticks w)
   < inject_Z (ttl_seconds (dispatch_cache w)))%Q ->
  let w1 := snd (create_dispatch' request w) in
  fst (create_dispatch' request w1)
  = inr {| dispatch_id := "skipped"; dp_room := dr_room request;
           dp_agent_name := effective_agent settings request;
           note := Some "duplicate-suppressed" |}
  /\ rpc_calls (snd (create_dispatch' request w1))
     = rpc_request' request :: rpc_calls w.
Proof.
  intros Hdec Hapi Hlt w1.
  destruct (accepted_dispatch_recorded request w Hdec) as [Hk Httl].
  fold w1 in Hk, Httl.
  assert (Hw1 : ticks w1 = S (ticks w)
                /\ rpc_calls w1 = rpc_request' request :: rpc_calls w).
  { subst w1. rewrite create_dispatch_cases, Hdec, Hapi.
    destruct (lk_create_dispatch _ _); split; reflexivity. }
  destruct Hw1 as [Hticks Hlog].
  assert (Hskip : fst (decision' request w1) = true).
  { unfold cache_decision. rewrite should_skip_answer, Hk, Httl, Hticks.
    apply Qltb_true, Hlt. }
  rewrite create_dispatch_cases, Hskip. cbn [fst snd].
  split; [reflexivity|]. unfold after_cache_check. cbn [rpc_calls set_cache].
  exact Hlog.
Qed.

(** X22: once the window is over the request goes through again.  When a
    request was not suppressed at one time, the same request made
    [ttl_seconds] or more later, on the cache the first call left, is not
    suppressed either, and with the LiveKit client open it reaches the
    RPC. *)
Theorem dispatch_after_window_proceeds (request : DispatchRequest)
    (w w2 : World) :
  fst (decision' request w) = false ->
  dispatch_cache w2 = dispatch_cache (snd (create_dispatch' request w)) ->
  (inject_Z (ttl_seconds (dispatch_cache w))
   <= time_time (ticks w2) - time_time (ticks w))%Q ->
  LiveKitAPI_new (checked' request w2) = inr tt ->
  fst (decision' request w2) = false
  /\ rpc_calls (snd (create_dispatch' request w2))
     = rpc_request' request :: rpc_calls w2.
Proof.
  intros Hdec Hsame Hge Hapi.
  destruct (accepted_dispatch_recorded request w Hdec) as [Hk Httl].
  assert (Hdec2 : fst (decision' request w2) = false).
  { unfold cache_decision. rewrite should_skip_answer, Hsame, Hk, Httl.
    apply Qltb_false, Hge. }
  split; [exact Hdec2|].
  rewrite create_dispatch_cases, Hdec2, Hapi.
  destruct (lk_create_dispatch _ _); reflexivity.
Qed.

End DispatchSequences.

Lemma duplicate_dispatch_one_rpc_witness :
  let run := create_dispatch clock_seconds api_ok rpc_ok default_settings in
  length (rpc_calls
            (snd (run lobby_dispatch (snd (run lobby_dispatch fresh_world)))))
  = 1%nat.
Proof.
  intros run.
  assert (Hdec : fst (cache_decision clock_seconds default_settings
                        lobby_dispatch fresh_world) = false)
    by (vm_compute; reflexivity).
  assert (Hlt : (clock_seconds (S (ticks fresh_world))
                 - clock_seconds (ticks fresh_world)
                 < inject_Z (ttl_seconds (dispatch_cache fresh_world)))%Q)
    by (vm_compute; reflexivity).
  destruct (duplicate_dispatch_one_rpc clock_seconds api_ok rpc_ok
              default_settings lobby_dispatch fresh_world Hdec eq_refl Hlt)
    as [_ Hlog].
  subst run. rewrite Hlog. reflexivity.
Defined.

Lemma dispatch_after_window_proceeds_witness :
  fst (cache_decision clock_seconds default_settings lobby_dispatch
         later_world) = false.
Proof.
  assert (Hdec : fst (cache_decision clock_seconds default_settings
                        lobby_dispatch fresh_world) = false)
    by (vm_compute; reflexivity).
  assert (Hge : (inject_Z (ttl_seconds (dispatch_cache fresh_world))
                 <= clock_seconds (ticks later_world)
                    - clock_seconds (ticks fresh_world))%Q)
    by (vm_compute; discriminate).
  destruct (dispatch_after_window_proceeds clock_seconds api_ok rpc_ok
              default_settings lobby_dispatch fresh_world later_world
              Hdec eq_refl Hge eq_refl) as [Hd _].
  exact Hd.
Defined.

(** * Start-up and readiness *)

(** X23: a server that has started is ready.  When the start-up check of
    [lifespan] passes, [readiness_check] answers [{"status": "ready"}] on
    the same settings, and the legacy status reports [ok] exactly when the
    agent name is not empty. *)
Theorem started_server_is_ready (s : Settings) :
  lifespan_startup s = inr tt ->
  readiness_check s = [("status", "ready")]
  /\ legacy_status_ok s = Py.str_truthy (agent_name s).
Proof.
  unfold lifespan_startup, readiness_check, legacy_status_ok.
  destruct (required_configuration s) eqn:Hreq; [|discriminate].
  intros _. split; [reflexivity|].
  unfold required_configuration in Hreq. cbn in Hreq.
  apply andb_true_iff in Hreq as [Hws _]. rewrite Hws. reflexivity.
Qed.

Lemma started_server_is_ready_witness :
  readiness_check default_settings = [("status", "ready")]
  /\ legacy_status_ok default_settings = true.
Proof.
  exact (started_server_is_ready default_settings eq_refl).
Defined.

Lemma prefix_nonempty (scheme v : string) :
  scheme <> "" -> String.prefix scheme v = true -> v <> "".
Proof.
  intros Hs Hp ->. destruct scheme; [congruence | discriminate].
Qed.

(** X24: a URL that [validate_urls] lets through is returned unchanged and
    is not empty, so for settings whose WebSocket URL passed the validator
    the start-up check and the readiness check depend on the API key and
    secret alone: the service is ready exactly when both are non-empty. *)
Theorem validated_url_readiness (s : Settings) (u : string) :
  validate_urls (livekit_ws_url s) = inr u ->
  u = livekit_ws_url s
  /\ u <> ""
  /\ (readiness_check s = [("status", "ready")]
      <-> livekit_api_key s <> "" /\ livekit_api_secret s <> "")
  /\ (lifespan_startup s = inr tt
      <-> livekit_api_key s <> "" /\ livekit_api_secret s <> "").
Proof.
  unfold validate_urls.
  destruct (existsb _ _) eqn:Hex; cbn [negb]; [|discriminate].
  intros [= <-]. split; [reflexivity|].
  assert (Hne : livekit_ws_url s <> "").
  { apply existsb_exists in Hex as (scheme & Hin & Hp).
    apply (prefix_nonempty scheme); [|exact Hp].
    cbn in Hin. destruct Hin as [<-|[<-|[<-|[<-|[]]]]]; discriminate. }
  split; [exact Hne|].
  assert (Hreq : required_configuration s = true
                 <-> livekit_api_key s <> "" /\ livekit_api_secret s <> "").
  { unfold required_configuration. cbn.
    destruct (livekit_ws_url s); [congruence|].
    destruct (livekit_api_key s), (livekit_api_secret s); cbn;
      split; try discriminate; try tauto;
      intros _; split; discriminate. }
  unfold readiness_check, lifespan_startup.
  destruct (required_configuration s); cbn [negb]; split;
    (split; [intros H; try discriminate; apply Hreq; reflexivity
            | intros H; apply Hreq in H; try discriminate; reflexivity]).
Qed.

Lemma validated_url_readiness_witness :
  readiness_check default_settings = [("status", "ready")]
  <-> livekit_api_key default_settings <> ""
      /\ livekit_api_secret default_settings <> "".
Proof.
  destruct (validated_url_readiness default_settings _ eq_refl)
    as (_ & _ & Hready & _).
  exact Hready.
Defined.

(** * A token request without identity *)

(** [generate_token] cannot serve a request whose identity is [None]:
    whatever the signing library does, no [TokenResponse] can be built for
    it, and the call ends in [TokenGenerationError]. *)
Lemma generate_token_without_identity (utcnow : nat -> Z)
    (isoformat : Z -> string) (AccessToken_new : string -> string -> exn + unit)
    (to_jwt : World -> AccessToken -> exn + string) (settings : Settings)
    (request : TokenRequest) (w : World) :
  tr_identity request = None ->
  exists e : exn,
    fst (generate_token utcnow isoformat AccessToken_new to_jwt settings
           request w) = inl e
    /\ is_TokenGenerationError e = true.
Proof.
  intros Hid. rewrite generate_token_unfold.
  destruct (_ >? _)%Z; [eexists; split; reflexivity|].
  destruct (AccessToken_new _ _) as [e1|[]];
    [eexists; split; [reflexivity|apply reraised_is_TokenGenerationError]|].
  cbv zeta. destruct (to_jwt _ _) as [e2|jwt];
    [eexists; split; [reflexivity|apply reraised_is_TokenGenerationError]|].
  rewrite Hid. eexists; split; reflexivity.
Qed.

(** C8 fails as stated: the request [anonymous_request] passes the
    validators of [TokenRequest] and its TTL of 60 minutes is within the
    maximum of 1440, yet [generate_token] ends in [TokenGenerationError] on
    it, with a signing library that accepts everything: the request has no
    identity, and only the endpoints provide one. *)
Lemma generate_token_needs_identity :
  TokenRequest_valid anonymous_request = true
  /\ (tr_ttl_minutes anonymous_request
      <=? max_token_ttl_minutes default_settings)%Z = true
  /\ exists e : exn,
       fst (generate_token clock_utc iso_stub new_ok jwt_ok default_settings
              anonymous_request fresh_world) = inl e
       /\ is_TokenGenerationError e = true.
Proof.
  split; [vm_compute; reflexivity|]. split; [vm_compute; reflexivity|].
  apply generate_token_without_identity. reflexivity.
Qed.
